(** * react-native-immutable-list-view: ImmutableListView and EmptyListView

    A shallow embedding of the two view components of the repository
    (ImmutableListView.js and EmptyListView.js) and of the contracts of the
    collaborators they call: Immutable.js collections, the legacy
    ListView.DataSource, React's prop resolution and the
    InteractionManager queue.

    Conventions.
    - A JS value is a [Value]; a props object is a finite map from prop
      names to values.  Reading a prop that is absent yields [VUndefined].
    - A function that can raise a TypeError in JS returns [option]; [None]
      is the exception, or an input the model leaves out (said where it
      happens).
    - [this.state], [this.props], [this.canSetState] and the callbacks
      queued with InteractionManager are the fields of an [Instance],
      threaded explicitly. *)

From stdpp Require Import gmap strings list fin_maps.
From Stdlib Require Import ZArith Bool.

Set Warnings "-register-all".

Local Open Scope Z_scope.

(** ** JS values *)

(** Keys of Immutable collections: list indices and Map keys.  The model
    covers integer and string keys. *)
Inductive Key :=
| KNum (n : Z)
| KStr (s : string).

Global Instance Key_eq_dec : EqDecision Key.
Proof. solve_decision. Defined.

(** Numbers are the integers (no NaN, no fractions); there are no plain
    arrays or objects.  Immutable collections are persistent values: a List
    is its sequence of items, a keyed collection its entries in iteration
    order (the ordered mapping of the spec: two of them are equal when
    they hold the same entries in the same order).  A host function is
    known by its reference only.  The functions
    the components define are values too: the default
    [sectionHeaderHasChanged], and the two arrow functions made while
    rendering, each closing over the [this.props] of the instance that
    rendered it. *)
Inductive Value :=
| VUndefined
| VNull
| VBool (b : bool)
| VNum (n : Z)
| VStr (s : string)
| VFunc (ref : nat)
| VList (items : list Value)
| VMap (entries : list (Key * Value))
| VSectionHeaderNeverChanges
| VRenderRowOfEmptyListView (this_props : gmap string Value)
| VRenderEmptyInListRow (renderEmptyInList : Value) (this_props : gmap string Value).

Abbreviation Props := (gmap string Value).

(** What a data source keeps as its blob: nothing before the first clone,
    the plain object [{s1: rows}] of a flat clone, or an Immutable value. *)
Inductive DataBlob :=
| NoBlob
| S1 (rows : Value)
| Blob (data : Value).

(** An argument of a call: a value, or a props object. *)
Inductive Arg :=
| ArgValue (v : Value)
| ArgProps (props : Props).

(** Induction over values that reaches the items of a List, the values of
    a keyed collection and the function an arrow function calls. *)
Lemma Value_nested_ind (P : Value → Prop) :
  P VUndefined → P VNull → (∀ b, P (VBool b)) → (∀ n, P (VNum n)) →
  (∀ s, P (VStr s)) → (∀ r, P (VFunc r)) →
  (∀ items, Forall P items → P (VList items)) →
  (∀ entries, Forall (λ e, P e.2) entries → P (VMap entries)) →
  P VSectionHeaderNeverChanges →
  (∀ tp, P (VRenderRowOfEmptyListView tp)) →
  (∀ f tp, P f → P (VRenderEmptyInListRow f tp)) →
  ∀ v, P v.
Proof.
  intros Hu Hn Hb Hz Hs Hf Hl Hm Ho Hr Hi.
  fix IH 1. intros [ | | b | n | s | r | items | entries | | tp | f tp ].
  - exact Hu.
  - exact Hn.
  - apply Hb.
  - apply Hz.
  - apply Hs.
  - apply Hf.
  - apply Hl. induction items as [ | x xs IHxs ]; constructor; [ apply IH | exact IHxs ].
  - apply Hm. induction entries as [ | [k x] xs IHxs ]; constructor; [ apply IH | exact IHxs ].
  - exact Ho.
  - apply Hr.
  - apply Hi, IH.
Qed.

(** ** JS operators used by the components *)
Module JS.

(** ToBoolean. *)
Definition truthy (v : Value) : bool :=
  match v with
  | VUndefined | VNull => false
  | VBool b => b
  | VNum n => negb (n =? 0)
  | VStr s => negb (String.eqb s "")
  | _ => true
  end.

(** [typeof v === 'string'] *)
Definition typeof_string (v : Value) : bool :=
  match v with VStr _ => true | _ => false end.


(** Property read [o.k]. *)
Definition prop (o : Props) (k : string) : Value := default VUndefined (o !! k).

(** [a || b] *)
Definition or (a b : Value) : Value := if truthy a then a else b.

(** Object spread [{...a, ...b}]: the later source wins. *)
Definition spread (a b : Props) : Props := b ∪ a.

(** Rest pattern [const {k1, ..., kn, ...rest} = o]. *)
Definition rest (ks : list string) (o : Props) : Props :=
  foldr delete o ks.

(** [v >= 0] for a number and for undefined (NaN >= 0 is false).  A prop
    of another type is outside PropTypes.number and its coercion is not
    modelled: [None]. *)
Definition ge0 (v : Value) : option bool :=
  match v with
  | VNum n => Some (0 <=? n)
  | VUndefined => Some false
  | _ => None
  end.

End JS.

(** ** Immutable.js collections *)
Module Immutable.

(** [Iterable.isIterable] *)
Definition isIterable (v : Value) : bool :=
  match v with VList _ | VMap _ => true | _ => false end.

Definition indexed (items : list Value) : list (Key * Value) :=
  imap (λ i x, (KNum (Z.of_nat i), x)) items.

(** The entries of a collection in iteration order. *)
Definition entries (c : Value) : option (list (Key * Value)) :=
  match c with
  | VList items => Some (indexed items)
  | VMap es => Some es
  | _ => None
  end.

Definition isEmpty (c : Value) : option bool :=
  es ← entries c; Some (bool_decide (es = [])).

(** [c.keySeq().toArray()] *)
Definition keySeq (c : Value) : option (list Key) :=
  es ← entries c; Some (es.*1).

(** [c.valueSeq().toArray()] *)
Definition valueSeq (c : Value) : option (list Value) :=
  es ← entries c; Some (es.*2).

Definition resolveIndex (i sz : Z) : Z :=
  if i <? 0 then Z.max 0 (sz + i) else Z.min sz i.

Definition sub {A} (b e : Z) (l : list A) : list A :=
  let sz := Z.of_nat (length l) in
  let rb := resolveIndex b sz in
  let re := resolveIndex e sz in
  take (Z.to_nat (re - rb)) (drop (Z.to_nat rb) l).

(** [c.slice(b, e)]: the entries from b up to e, negative bounds counted
    from the end; a List is re-indexed from 0, a keyed collection keeps
    its keys. *)
Definition slice (c : Value) (b e : Z) : option Value :=
  match c with
  | VList items => Some (VList (sub b e items))
  | VMap es => Some (VMap (sub b e es))
  | _ => None
  end.

Fixpoint assoc (k : Key) (es : list (Key * Value)) : Value :=
  match es with
  | [] => VUndefined
  | (k', v) :: es' => if decide (k = k') then v else assoc k es'
  end.

(** [c.get(k)]: undefined when the key is absent; a negative List index
    counts from the end.  A string as List index is left out of the
    model. *)
Definition get (c : Value) (k : Key) : option Value :=
  match c with
  | VList items =>
      match k with
      | KNum i =>
          let j := if i <? 0 then Z.of_nat (length items) + i else i in
          Some (if j <? 0 then VUndefined else default VUndefined (items !! Z.to_nat j))
      | KStr _ => None
      end
  | VMap es => Some (assoc k es)
  | _ => None
  end.

Fixpoint assoc_set (k : Key) (v : Value) (es : list (Key * Value)) : list (Key * Value) :=
  match es with
  | [] => [(k, v)]
  | (k', v') :: es' => if decide (k = k') then (k, v) :: es' else (k', v') :: assoc_set k v es'
  end.

(** [c.set(k, v)]: a negative List index counts from the end; a List
    grows with undefined holes when the index falls past its end, or
    before its start; a keyed collection replaces in place or appends.  A
    string as List index is left out of the model. *)
Definition set (c : Value) (k : Key) (v : Value) : option Value :=
  match c with
  | VList items =>
      match k with
      | KNum i =>
          let n := length items in
          let j := if i <? 0 then Z.of_nat n + i else i in
          if j <? 0
          then Some (VList (v :: replicate (Z.to_nat (- j) - 1)%nat VUndefined ++ items))
          else if (Z.to_nat j <? n)%nat then Some (VList (<[Z.to_nat j := v]> items))
          else Some (VList (items ++ replicate (Z.to_nat j - n)%nat VUndefined ++ [v]))
      | KStr _ => None
      end
  | VMap es => Some (VMap (assoc_set k v es))
  | _ => None
  end.

(** [Immutable.fromJS] of a JS array literal: a List of the converted
    elements.  Only plain arrays and objects are converted, and the model
    has none: every element converts to itself. *)
Definition fromJS_array (xs : list Value) : Value := VList xs.

(** [Immutable.is] ([is] is reserved here): value equality.  Primitives by
    value, functions by reference, collections of the same kind entry by
    entry in iteration order.  An arrow function made while rendering is a
    new object each time, and the model does not track which object a
    value is: two occurrences count as two objects.  Such a function is
    never row data: it only ever sits under renderRow. *)
Fixpoint is_ (a b : Value) {struct a} : bool :=
  match a, b with
  | VUndefined, VUndefined => true
  | VNull, VNull => true
  | VBool x, VBool y => Bool.eqb x y
  | VNum x, VNum y => x =? y
  | VStr x, VStr y => String.eqb x y
  | VFunc r, VFunc r' => Nat.eqb r r'
  | VSectionHeaderNeverChanges, VSectionHeaderNeverChanges => true
  | VList xs, VList ys =>
      (fix go (xs ys : list Value) : bool :=
         match xs, ys with
         | [], [] => true
         | x :: xs', y :: ys' => is_ x y && go xs' ys'
         | _, _ => false
         end) xs ys
  | VMap xs, VMap ys =>
      (fix go (xs ys : list (Key * Value)) : bool :=
         match xs, ys with
         | [], [] => true
         | (k, x) :: xs', (k', y) :: ys' =>
             bool_decide (k = k') && is_ x y && go xs' ys'
         | _, _ => false
         end) xs ys
  | _, _ => false
  end.

End Immutable.

(** Structural equality of two values, as a relation: the specification
    [Immutable.is_] is checked against. *)
Inductive StructEq : Value → Value → Prop :=
| SE_undefined : StructEq VUndefined VUndefined
| SE_null : StructEq VNull VNull
| SE_bool b : StructEq (VBool b) (VBool b)
| SE_num n : StructEq (VNum n) (VNum n)
| SE_str s : StructEq (VStr s) (VStr s)
| SE_func r : StructEq (VFunc r) (VFunc r)
| SE_sectionHeaderNeverChanges :
    StructEq VSectionHeaderNeverChanges VSectionHeaderNeverChanges
| SE_list xs ys : Forall2 StructEq xs ys → StructEq (VList xs) (VList ys)
| SE_map xs ys :
    Forall2 (λ x y, x.1 = y.1 ∧ StructEq x.2 y.2) xs ys →
    StructEq (VMap xs) (VMap ys).

(** ** utils *)
Module utils.

(** Modelled from the spec: utils.UNITARY_LIST is not among the sources.
    The spec calls the placeholder's list data a one-element sequence;
    it does not name the element, which [setListDataFromProps] replaces
    before the first render. *)
Definition UNITARY_LIST : Value := VList [VNull].

(** Modelled from the spec: utils.getKeys is not among the sources.
    Keys are enumerated over the collection in its iteration order. *)
Definition getKeys (immutableData : Value) : option (list Key) :=
  Immutable.keySeq immutableData.

(** Modelled from the spec: utils.getRowIdentities is not among the
    sources.  Row identities are enumerated per section, sections in the
    collection's iteration order, rows in the section's own; a section
    that is no collection has no rows. *)
Definition getRowIdentities (immutableSectionData : Value) : option (list (list Key)) :=
  sections ← Immutable.valueSeq immutableSectionData;
  Some (map (λ section, default [] (Immutable.keySeq section)) sections).

(** Modelled from the spec: utils.getValueFromKey is not among the
    sources.  Row data is indexed by (sectionID, rowID) and section data
    by sectionID: the value held under the key, in a collection or in the
    plain object that wraps a flat collection. *)
Definition getValueFromKey (key : Key) (data : DataBlob) : option Value :=
  match data with
  | NoBlob => None
  | S1 rows => Some (if decide (key = KStr "s1") then rows else VUndefined)
  | Blob v => Immutable.get v key
  end.

Definition noRows (section : Value) : bool :=
  match Immutable.entries section with
  | Some [] => true
  | _ => false
  end.

(** Modelled from the spec: utils.isEmptyListView is not among the
    sources.  Empty means: no sections, or no rows while empty sections
    are excluded.  A value that is no collection is not described. *)
Definition isEmptyListView (immutableData enableEmptySections : Value) : option bool :=
  es ← Immutable.entries immutableData;
  Some (bool_decide (es = [])
        || (negb (JS.truthy enableEmptySections) && forallb noRows es.*2)).

End utils.

(** ** ListView.DataSource

    The data source of the legacy list widget: the four callbacks it is
    constructed with and, after a clone, the blob and the identities the
    clone was given. *)
Module ListViewDataSource.

Record t := mk {
  rowHasChanged : Value → Value → bool;
  getRowData : DataBlob → Key → Key → option Value;
  sectionHeaderHasChanged : Value;
  getSectionHeaderData : DataBlob → Key → option Value;
  dataBlob : DataBlob;
  sectionIdentities : list Key;
  rowIdentities : list (list Key);
}.

(** [new ListView.DataSource({...})] *)
Definition new rhc grd shc gshd : t :=
  mk rhc grd shc gshd NoBlob [] [].

Definition cloneWithRowsAndSections (ds : t) (dataBlob : DataBlob)
    (sectionIdentities : list Key) (rowIdentities : list (list Key)) : t :=
  mk (rowHasChanged ds) (getRowData ds) (sectionHeaderHasChanged ds)
     (getSectionHeaderData ds) dataBlob sectionIdentities rowIdentities.

(** A flat clone is the sectioned clone of the single section [s1]. *)
Definition cloneWithRows (ds : t) (dataBlob : Value) (rowIdentities : list Key) : t :=
  cloneWithRowsAndSections ds (S1 dataBlob) [KStr "s1"] [rowIdentities].

(** Number of rows the source holds. *)
Definition getRowCount (ds : t) : nat :=
  sum_list (map length (rowIdentities ds)).


End ListViewDataSource.

Abbreviation DataSource := ListViewDataSource.t.

(** ** React elements *)

(** [styles] is not among the sources: an entry of the style sheet is
    known by its name. *)
Inductive Style :=
| StyleSheetEntry (name : string)
| StyleValue (v : Value).

(** What a render method returns.  In [ListView dataSource props] the
    first field is the [dataSource] attribute and the second the props
    spread after it (an entry [dataSource] among them, which the propTypes
    rule out, would take its place).  [HostElement f args] is the element a
    host function [f] returned for [args], opaque to the components. *)
Inductive Element :=
| Text (style : list Style) (children : Value)
| ListView (dataSource : DataSource) (props : Props)
| EmptyListViewElement (props : Props)
| ImmutableListViewElement (props : Props)
| HostElement (f : nat) (args : list Arg).

(** The host's functions: whether the call [f(args)] returns something
    renderable (truthy) rather than null. *)
Definition Host := nat → list Arg → bool.

Module React.

(** Prop resolution at element creation: a prop that is undefined or
    absent takes its default. *)
Definition resolveDefaultProps (defaultProps props : Props) : Props :=
  merge (λ p d,
           match p with
           | Some VUndefined => match d with Some _ => d | None => p end
           | Some _ => p
           | None => d
           end) props defaultProps.

End React.

(** ** EmptyListView.js *)
Module EmptyListView.

Record Instance := mkInstance {
  props : Props;
  listData : Value;          (* this.state.listData *)
}.

Section WithListView.
(** [ListView.defaultProps], from the widget's package. *)
Variable ListView_defaultProps : Props.

Definition defaultProps : Props :=
  JS.spread ListView_defaultProps {[ "emptyText" := VStr "No data." ]}.
End WithListView.

(** The state initialiser. *)
Definition constructor (props : Props) : Instance :=
  mkInstance props utils.UNITARY_LIST.

Definition setListDataFromProps (this : Instance) (props : Props) : option Instance :=
  let listData := listData this in
  let renderEmpty := JS.prop props "renderEmpty" in
  let renderEmptyInList := JS.prop props "renderEmptyInList" in
  let emptyText := JS.prop props "emptyText" in
  listData' ← Immutable.set listData (KNum 0)
                (Immutable.fromJS_array [renderEmpty; renderEmptyInList; emptyText]);
  Some (mkInstance (EmptyListView.props this) listData').

Definition componentWillMount (this : Instance) : option Instance :=
  setListDataFromProps this (props this).

(** React installs [nextProps] as [this.props] once the hook returns. *)
Definition componentWillReceiveProps (this : Instance) (nextProps : Props) : option Instance :=
  this' ← setListDataFromProps this nextProps;
  Some (mkInstance nextProps (listData this')).

(** The row that shows [emptyText]. *)
Definition renderRow (this_props : Props) : Element :=
  let emptyText := JS.prop this_props "emptyText" in
  Text [StyleSheetEntry "emptyText"] emptyText.

(** The props left after the destructuring in [render]. *)
Definition passThroughProps (this_props : Props) : Props :=
  JS.rest ["renderEmpty"; "renderEmptyInList"; "renderSectionHeader"; "emptyText"]
          this_props.

(** Attributes in source order: [renderRow], the spread, [immutableData]. *)
Definition render (this : Instance) : Element :=
  let listData := listData this in
  ImmutableListViewElement
    (<["immutableData" := listData]>
       (JS.spread {[ "renderRow" := VRenderRowOfEmptyListView (props this) ]}
                  (passThroughProps (props this)))).

End EmptyListView.

(** ** Calling a function value *)

(** [f(...args)]: a host function answers through [host]; the arrow
    function of [EmptyListView.render] is [() => this.renderRow()]; the one
    of [ImmutableListView.renderEmpty] is
    [() => renderEmptyInList(this.props)]; the default
    [sectionHeaderHasChanged] returns false.  Calling anything else is a
    TypeError.  The inner [option] is [None] for a result that is not
    renderable (null, false). *)
Fixpoint call (host : Host) (f : Value) (args : list Arg) : option (option Element) :=
  match f with
  | VFunc r => Some (if host r args then Some (HostElement r args) else None)
  | VRenderRowOfEmptyListView this_props => Some (Some (EmptyListView.renderRow this_props))
  | VRenderEmptyInListRow renderEmptyInList this_props =>
      call host renderEmptyInList [ArgProps this_props]
  | VSectionHeaderNeverChanges => Some None
  | _ => None
  end.

(** ** ImmutableListView.js *)
Module ImmutableListView.

Record State := mkState {
  dataSource : DataSource;
  interactionOngoing : bool;
}.

(** A component instance: [this.props], [this.state], the liveness flag,
    the callbacks it has queued with
    [InteractionManager.runAfterInteractions] (oldest first, each closed
    over the props it was queued for), and the history of its [setState]
    calls: for each, the props and the flag of the derivation that made
    it, oldest first. *)
Record Instance := mkInstance {
  props : Props;
  state : State;
  canSetState : bool;
  afterInteractions : list Props;
  derivations : list (Props * bool);
}.

Section WithListView.
Variable ListView_defaultProps : Props.

(** [sectionHeaderHasChanged] defaults to the function that returns
    false. *)
Definition defaultProps : Props :=
  JS.spread ListView_defaultProps
    (<["sectionHeaderHasChanged" := VSectionHeaderNeverChanges]>
       (<["enableEmptySections" := VBool true]>
          (<["removeClippedSubviews" := VBool false]>
             {[ "renderEmptyInList" := VStr "No data." ]}))).
End WithListView.

(** The callbacks of the data source in the state initialiser. *)
Definition rowHasChanged (prevRowData nextRowData : Value) : bool :=
  negb (Immutable.is_ prevRowData nextRowData).

Definition getRowData (dataBlob : DataBlob) (sectionID rowID : Key) : option Value :=
  rowData ← utils.getValueFromKey sectionID dataBlob;
  utils.getValueFromKey rowID (Blob rowData).

Definition getSectionHeaderData (dataBlob : DataBlob) (sectionID : Key) : option Value :=
  utils.getValueFromKey sectionID dataBlob.

Definition constructor (props : Props) : Instance :=
  mkInstance props
    (mkState
       (ListViewDataSource.new rowHasChanged getRowData
          (JS.prop props "sectionHeaderHasChanged") getSectionHeaderData)
       true)
    false [] [].

(** [this.setState({dataSource, interactionOngoing})], entered in the
    history under the arguments of the derivation. *)
Definition setState (this : Instance) (s : State) (derivation : Props * bool) : Instance :=
  mkInstance (props this) s (canSetState this) (afterInteractions this)
             (derivations this ++ [derivation]).

Definition runAfterInteractions (this : Instance) (captured : Props) : Instance :=
  mkInstance (props this) (state this) (canSetState this)
             (afterInteractions this ++ [captured]) (derivations this).

(** The collection the data source is derived from. *)
Definition displayData (this : Instance) (props : Props)
    (interactionHasJustFinished : bool) : option Value :=
  let interactionOngoing := interactionOngoing (state this) in
  let immutableData := JS.prop props "immutableData" in
  let rowsDuringInteraction := JS.prop props "rowsDuringInteraction" in
  ge ← JS.ge0 rowsDuringInteraction;
  let shouldDisplayPartialData :=
    ge && interactionOngoing && negb interactionHasJustFinished in
  if shouldDisplayPartialData
  then match rowsDuringInteraction with
       | VNum n => Immutable.slice immutableData 0 n
       | _ => None
       end
  else Some immutableData.

(** The data source cloned over [displayData]. *)
Definition updatedDataSource (dataSource : DataSource) (props : Props)
    (displayData : Value) : option DataSource :=
  let renderSectionHeader := JS.prop props "renderSectionHeader" in
  if JS.truthy renderSectionHeader
  then keys ← utils.getKeys displayData;
       ids ← utils.getRowIdentities displayData;
       Some (ListViewDataSource.cloneWithRowsAndSections dataSource (Blob displayData)
                 keys ids)
  else keys ← utils.getKeys displayData;
       Some (ListViewDataSource.cloneWithRows dataSource displayData keys).

Definition setStateFromProps (this : Instance) (props : Props)
    (interactionHasJustFinished : bool) : option Instance :=
  if negb (canSetState this) then Some this else
  let dataSource := dataSource (state this) in
  let interactionOngoing := interactionOngoing (state this) in
  displayData ← displayData this props interactionHasJustFinished;
  updatedDataSource ← updatedDataSource dataSource props displayData;
  Some (setState this
          (mkState updatedDataSource
             (if interactionHasJustFinished then false else interactionOngoing))
          (props, interactionHasJustFinished)).

Definition setStateFromPropsAfterInteraction (this : Instance) (props : Props)
    : option Instance :=
  this ← setStateFromProps this props false;
  ge ← JS.ge0 (JS.prop props "rowsDuringInteraction");
  Some (if (ge : bool) then runAfterInteractions this props else this).

Definition componentWillMount (this : Instance) : option Instance :=
  let this := mkInstance (props this) (state this) true (afterInteractions this)
                         (derivations this) in
  setStateFromPropsAfterInteraction this (props this).

(** React installs [newProps] as [this.props] once the hook returns. *)
Definition componentWillReceiveProps (this : Instance) (newProps : Props)
    : option Instance :=
  this ← setStateFromPropsAfterInteraction this newProps;
  Some (mkInstance newProps (state this) (canSetState this) (afterInteractions this)
                   (derivations this)).

Definition componentWillUnmount (this : Instance) : Instance :=
  mkInstance (props this) (state this) false (afterInteractions this)
             (derivations this).

(** InteractionManager runs the oldest queued callback:
    [() => this.setStateFromProps(props, true)]. *)
Definition runDeferred (this : Instance) : option Instance :=
  match afterInteractions this with
  | [] => Some this
  | captured :: queue =>
      setStateFromProps
        (mkInstance (props this) (state this) (canSetState this) queue
                    (derivations this))
        captured true
  end.

(** What can happen to a mounted component.  After [Unmount] React
    delivers no more props; queued callbacks still run. *)
Inductive Event :=
| ReceiveProps (newProps : Props)
| InteractionsSettle
| Unmount.

Definition step (this : Instance) (e : Event) : option Instance :=
  match e with
  | ReceiveProps newProps =>
      if canSetState this then componentWillReceiveProps this newProps else Some this
  | InteractionsSettle => runDeferred this
  | Unmount => Some (componentWillUnmount this)
  end.

Fixpoint run (this : Instance) (es : list Event) : option Instance :=
  match es with
  | [] => Some this
  | e :: es' => this' ← step this e; run this' es'
  end.

Section Render.
Variable host : Host.

(** The outer [option] is a TypeError, the inner one [null]. *)
Definition renderEmpty (this_props : Props) : option (option Element) :=
  let immutableData := JS.prop this_props "immutableData" in
  let enableEmptySections := JS.prop this_props "enableEmptySections" in
  let renderEmpty := JS.prop this_props "renderEmpty" in
  let renderEmptyInList := JS.prop this_props "renderEmptyInList" in
  let contentContainerStyle := JS.prop this_props "contentContainerStyle" in
  let shouldTryToRenderEmpty := JS.or renderEmpty renderEmptyInList in
  empty ← (if JS.truthy shouldTryToRenderEmpty
           then utils.isEmptyListView immutableData enableEmptySections
           else Some false);
  if (empty : bool) then
    if JS.truthy renderEmpty then
      if JS.typeof_string renderEmpty
      then Some (Some (Text [StyleSheetEntry "emptyText"; StyleValue contentContainerStyle]
                            renderEmpty))
      else call host renderEmpty [ArgProps this_props]
    else if JS.truthy renderEmptyInList then
      if JS.typeof_string renderEmptyInList
      then let passThroughProps := JS.rest ["renderRow"] this_props in
           Some (Some (EmptyListViewElement
                         (<["emptyText" := renderEmptyInList]> passThroughProps)))
      else Some (Some (EmptyListViewElement
                         (<["renderRow" :=
                              VRenderEmptyInListRow renderEmptyInList this_props]>
                            this_props)))
    else Some None
  else Some None.

(** The props left after the destructuring in [render]. *)
Definition passThroughProps (this_props : Props) : Props :=
  JS.rest ["immutableData"; "renderEmpty"; "renderEmptyInList";
           "rowsDuringInteraction"; "sectionHeaderHasChanged"] this_props.

(** [this.renderEmpty() || <ListView dataSource={dataSource}
    {...passThroughProps} />] *)
Definition render (this : Instance) : option Element :=
  let dataSource := dataSource (state this) in
  e ← renderEmpty (props this);
  Some (match e with
        | Some el => el
        | None => ListView dataSource (passThroughProps (props this))
        end).
End Render.

End ImmutableListView.

(** ** Mounting

    What React does with a composite element: resolve the default props,
    construct the instance, run [componentWillMount], call [render], and
    mount what [render] returned. *)
Module Reconciler.

(** [Threw]: a hook or [render] returned [None]. *)
Inductive Outcome :=
| Mounted (tree : Element)
| Threw
| OutOfFuel.

Section Mount.
Variable host : Host.
Variable ListView_defaultProps : Props.

Definition mountImmutableListView (elementProps : Props)
    : option (ImmutableListView.Instance * Element) :=
  let props :=
    React.resolveDefaultProps
      (ImmutableListView.defaultProps ListView_defaultProps) elementProps in
  this ← ImmutableListView.componentWillMount (ImmutableListView.constructor props);
  child ← ImmutableListView.render host this;
  Some (this, child).

Definition mountEmptyListView (elementProps : Props)
    : option (EmptyListView.Instance * Element) :=
  let props :=
    React.resolveDefaultProps
      (EmptyListView.defaultProps ListView_defaultProps) elementProps in
  this ← EmptyListView.componentWillMount (EmptyListView.constructor props);
  Some (this, EmptyListView.render this).

(** Mount an element down to the widget, text or host element it ends
    in; one unit of fuel per composite instantiated. *)
Fixpoint mount (fuel : nat) (e : Element) : Outcome :=
  match e with
  | ImmutableListViewElement p =>
      match fuel with
      | O => OutOfFuel
      | S fuel' =>
          match mountImmutableListView p with
          | Some (_, child) => mount fuel' child
          | None => Threw
          end
      end
  | EmptyListViewElement p =>
      match fuel with
      | O => OutOfFuel
      | S fuel' =>
          match mountEmptyListView p with
          | Some (_, child) => mount fuel' child
          | None => Threw
          end
      end
  | _ => Mounted e
  end.
End Mount.

End Reconciler.

(** * Properties *)

(** ** Immutable.is_ decides structural equality *)

Lemma is_StructEq (a b : Value) : Immutable.is_ a b = true ↔ StructEq a b.
Proof.
  revert b. induction a as [ | | x | x | x | x | xs IH | xs IH | | tp | f tp _ ]
    using Value_nested_ind; intros b.
  1-6: destruct b; simpl; split; intros H;
    first [ discriminate
          | by inversion H
          | first [ apply Bool.eqb_prop in H | apply Z.eqb_eq in H
                  | apply String.eqb_eq in H | apply Nat.eqb_eq in H ];
            subst; constructor
          | inversion H; subst;
            first [ apply Bool.eqb_reflx | apply Z.eqb_refl
                  | apply String.eqb_refl | apply Nat.eqb_refl ]
          | constructor ].
  - destruct b as [ | | | | | | ys | | | | ]; simpl;
      try (split; [ discriminate | intros H; inversion H ]).
    transitivity (Forall2 StructEq xs ys).
    + revert ys. induction IH as [ | x xs Hx _ IHxs ]; intros [ | y ys ].
      * split; [ constructor | reflexivity ].
      * split; [ discriminate | intros H; inversion H ].
      * split; [ discriminate | intros H; inversion H ].
      * rewrite andb_true_iff, Hx, IHxs. split.
        -- intros [? ?]. by constructor.
        -- intros H. inversion H; subst. done.
    + split; [ by constructor | intros H; by inversion H ].
  - destruct b as [ | | | | | | | ys | | | ]; simpl;
      try (split; [ discriminate | intros H; inversion H ]).
    transitivity (Forall2 (λ x y : Key * Value, x.1 = y.1 ∧ StructEq x.2 y.2) xs ys).
    + revert ys. induction IH as [ | [k x] xs Hx _ IHxs ]; intros [ | [k' y] ys ].
      * split; [ constructor | reflexivity ].
      * split; [ discriminate | intros H; inversion H ].
      * split; [ discriminate | intros H; inversion H ].
      * rewrite !andb_true_iff, bool_decide_eq_true, Hx, IHxs. simpl. split.
        -- intros [[? ?] ?]. by constructor.
        -- intros H. inversion H as [ | ? ? ? ? [Hk Hv] Hrest ]; subst. simpl in *. auto.
    + split; [ by constructor | intros H; by inversion H ].
  - destruct b; simpl; split; intros H;
      first [ discriminate | by inversion H | constructor ].
  - simpl. split; [ discriminate | intros H; inversion H ].
  - simpl. split; [ discriminate | intros H; inversion H ].
Qed.






(** The keys of a List are its indices. *)
Lemma elem_of_keys_indexed items k :
  k ∈ (Immutable.indexed items).*1 ↔
  ∃ i : nat, k = KNum (Z.of_nat i) ∧ (i < length items)%nat.
Proof.
  unfold Immutable.indexed. rewrite fmap_imap. split.
  - intros H. apply elem_of_lookup_imap_1 in H as (i & x & -> & Hx).
    exists i. split; [ done | ]. by eapply lookup_lt_Some.
  - intros (i & -> & Hi). apply lookup_lt_is_Some in Hi as [x Hx].
    by apply (elem_of_lookup_imap_2 (λ n, fst ∘ (λ x, (KNum (Z.of_nat n), x))) items x i).
Qed.





Lemma get_List_at items (i : nat) :
  Immutable.get (VList items) (KNum (Z.of_nat i)) = Some (default VUndefined (items !! i)).
Proof.
  simpl.
  destruct (Z.ltb_spec (Z.of_nat i) 0); [ lia | ].
  destruct (Z.ltb_spec (Z.of_nat i) 0); [ lia | ].
  by rewrite Nat2Z.id.
Qed.



(** ** The row-changed predicate (C5) *)

(** In the blob of a flat clone, the data of row [k] is [C.get(k)]. *)
Lemma getRowData_flat C k :
  ImmutableListView.getRowData (S1 C) (KStr "s1") k = Immutable.get C k.
Proof. reflexivity. Qed.









(** ** Deriving the data source (C2, C6) *)

Lemma sub_prefix {A} (n : Z) (l : list A) :
  0 ≤ n → Immutable.sub 0 n l = take (Z.to_nat n) l.
Proof.
  intros Hn. unfold Immutable.sub, Immutable.resolveIndex.
  destruct (Z.ltb_spec 0 0); [ lia | ].
  destruct (Z.ltb_spec n 0); [ lia | ].
  rewrite (Z.min_r (Z.of_nat (length l)) 0) by lia. simpl.
  rewrite drop_0, Z.sub_0_r.
  destruct (Z.le_gt_cases (Z.of_nat (length l)) n).
  - rewrite Z.min_l by lia. rewrite Nat2Z.id.
    rewrite !take_ge; [ done | lia | lia ].
  - by rewrite Z.min_r by lia.
Qed.

Lemma indexed_take (n : nat) items :
  Immutable.indexed (take n items) = take n (Immutable.indexed items).
Proof.
  unfold Immutable.indexed. apply list_eq. intros i.
  rewrite list_lookup_imap. destruct (decide (i < n)%nat).
  - rewrite !lookup_take_lt by done. by rewrite list_lookup_imap.
  - rewrite !lookup_take_ge by lia. done.
Qed.

(** [c.slice(0, n)] holds the first [n] entries of [c], in order. *)
Lemma slice_prefix C es n :
  Immutable.entries C = Some es → 0 ≤ n →
  ∃ D, Immutable.slice C 0 n = Some D
       ∧ Immutable.entries D = Some (take (Z.to_nat n) es)
       ∧ Immutable.isIterable D = true.
Proof.
  intros HC Hn. destruct C; try discriminate; simpl in HC; simplify_eq; simpl.
  - eexists. split; [ done | ]. simpl. by rewrite sub_prefix, indexed_take.
  - eexists. split; [ done | ]. simpl. by rewrite sub_prefix.
Qed.

(** Over a collection the clone always succeeds: sectioned when the
    section-header renderer is truthy, flat otherwise. *)
Lemma updatedDataSource_collection ds p D es :
  Immutable.entries D = Some es →
  ImmutableListView.updatedDataSource ds p D
  = Some (if JS.truthy (JS.prop p "renderSectionHeader")
          then ListViewDataSource.cloneWithRowsAndSections ds (Blob D) es.*1
                 (map (λ section, default [] (Immutable.keySeq section)) es.*2)
          else ListViewDataSource.cloneWithRows ds D es.*1).
Proof.
  intros HD. unfold ImmutableListView.updatedDataSource, utils.getKeys,
    utils.getRowIdentities, Immutable.keySeq, Immutable.valueSeq.
  rewrite HD. simpl. by case_match.
Qed.


(** A mounted component for the examples: three rows, two of them shown
    while the interaction lasts. *)
Definition threeRows : Value := VList [VStr "a"; VStr "b"; VStr "c"].

Definition twoDuringInteraction : Props :=
  <["rowsDuringInteraction" := VNum 2]> {[ "immutableData" := threeRows ]}.

Definition mountedExample : ImmutableListView.Instance :=
  ImmutableListView.mkInstance twoDuringInteraction
    (ImmutableListView.state (ImmutableListView.constructor twoDuringInteraction))
    true [] [].






(** ** Unmounting and the interaction flag (C3, C4) *)

Lemma setStateFromProps_unmounted this p finished :
  ImmutableListView.canSetState this = false →
  ImmutableListView.setStateFromProps this p finished = Some this.
Proof. intros H. unfold ImmutableListView.setStateFromProps. by rewrite H. Qed.

(** C3.  Once the liveness flag is false, a call of the state derivation
    returns without touching the component, whatever props it was given;
    so however many queued callbacks InteractionManager still runs, the
    state stays as it was and [setState] is never called. *)
Theorem unmounted_derivation_is_noop (this : ImmutableListView.Instance) :
  ImmutableListView.canSetState this = false →
  (∀ p finished, ImmutableListView.setStateFromProps this p finished = Some this)
  ∧ ∀ n, ∃ this',
      ImmutableListView.run this (replicate n ImmutableListView.InteractionsSettle)
      = Some this'
      ∧ ImmutableListView.state this' = ImmutableListView.state this
      ∧ ImmutableListView.derivations this' = ImmutableListView.derivations this
      ∧ ImmutableListView.props this' = ImmutableListView.props this
      ∧ ImmutableListView.canSetState this' = false.
Proof.
  intros Hdead. split.
  - intros p finished. by apply setStateFromProps_unmounted.
  - intros n. revert this Hdead. induction n as [ | n IH ]; intros this Hdead.
    + exists this. by simpl.
    + simpl. unfold ImmutableListView.runDeferred.
      destruct (ImmutableListView.afterInteractions this) as [ | captured queue ].
      * simpl. apply IH, Hdead.
      * rewrite setStateFromProps_unmounted by done. simpl.
        destruct (IH (ImmutableListView.mkInstance
                        (ImmutableListView.props this) (ImmutableListView.state this)
                        (ImmutableListView.canSetState this) queue
                        (ImmutableListView.derivations this)) Hdead)
          as (this' & Hrun & Hstate & Hcalls & Hprops & Hflag).
        exists this'. by rewrite Hrun.
Qed.

(** The example component, unmounted while its callback is still queued. *)
Definition unmountedExample : ImmutableListView.Instance :=
  ImmutableListView.componentWillUnmount
    (ImmutableListView.runAfterInteractions mountedExample twoDuringInteraction).

Lemma unmounted_derivation_is_noop_witness :
  ImmutableListView.setStateFromProps unmountedExample twoDuringInteraction true
  = Some unmountedExample.
Proof.
  exact (proj1 (unmounted_derivation_is_noop unmountedExample eq_refl)
           twoDuringInteraction true).
Defined.

(** What a derivation does to the two flags. *)
Lemma setStateFromProps_flags this p finished this' :
  ImmutableListView.setStateFromProps this p finished = Some this' →
  ImmutableListView.canSetState this' = ImmutableListView.canSetState this
  ∧ ImmutableListView.interactionOngoing (ImmutableListView.state this')
    = if ImmutableListView.canSetState this && finished then false
      else ImmutableListView.interactionOngoing (ImmutableListView.state this).
Proof.
  unfold ImmutableListView.setStateFromProps.
  destruct (ImmutableListView.canSetState this) eqn:Hlive; simpl.
  - intros H. destruct (ImmutableListView.displayData _ _ _); [ | done ]. simpl in H.
    destruct (ImmutableListView.updatedDataSource _ _ _); [ | done ].
    simpl in H. simplify_eq. simpl. by rewrite Hlive.
  - intros H. simplify_eq. by rewrite Hlive.
Qed.

(** No step sets the interaction flag again once it is cleared. *)
Lemma step_keeps_flag_cleared this e this' :
  ImmutableListView.interactionOngoing (ImmutableListView.state this) = false →
  ImmutableListView.step this e = Some this' →
  ImmutableListView.interactionOngoing (ImmutableListView.state this') = false.
Proof.
  intros Hclear Hstep. destruct e as [ newProps | | ]; simpl in Hstep.
  - destruct (ImmutableListView.canSetState this); [ | by simplify_eq ].
    unfold ImmutableListView.componentWillReceiveProps,
      ImmutableListView.setStateFromPropsAfterInteraction in Hstep.
    destruct (ImmutableListView.setStateFromProps this newProps false) as [ sync | ] eqn:Hsync;
      [ | done ].
    apply setStateFromProps_flags in Hsync as [_ Hflag].
    rewrite andb_false_r, Hclear in Hflag. simpl in Hstep.
    destruct (JS.ge0 _) as [ [ | ] | ]; simpl in Hstep; by simplify_eq.
  - unfold ImmutableListView.runDeferred in Hstep.
    destruct (ImmutableListView.afterInteractions this); [ by simplify_eq | ].
    apply setStateFromProps_flags in Hstep as [_ Hflag]. simpl in Hflag.
    rewrite Hflag, Hclear. by case_match.
  - by simplify_eq.
Qed.

Lemma run_keeps_flag_cleared this es this' :
  ImmutableListView.interactionOngoing (ImmutableListView.state this) = false →
  ImmutableListView.run this es = Some this' →
  ImmutableListView.interactionOngoing (ImmutableListView.state this') = false.
Proof.
  revert this. induction es as [ | e es IH ]; intros this Hclear Hrun; simpl in Hrun.
  - by simplify_eq.
  - destruct (ImmutableListView.step this e) as [ next | ] eqn:Hstep; [ | done ].
    simpl in Hrun. eapply IH; [ | exact Hrun ]. by eapply step_keeps_flag_cleared.
Qed.

(** With the flag cleared the display data is the whole collection. *)
Lemma displayData_flag_cleared this p finished D :
  ImmutableListView.interactionOngoing (ImmutableListView.state this) = false →
  ImmutableListView.displayData this p finished = Some D →
  D = JS.prop p "immutableData".
Proof.
  intros Hclear. unfold ImmutableListView.displayData. rewrite Hclear.
  destruct (JS.ge0 _) as [ ge | ]; simpl; [ | done ].
  rewrite andb_false_r. simpl. congruence.
Qed.

(** In a history of derivations, every deferred one (flag true) comes
    after a synchronous one (flag false) for the same props. *)
Definition syncFirst (history : list (Props * bool)) : Prop :=
  ∀ j p, history !! j = Some (p, true) →
         ∃ i, (i < j)%nat ∧ history !! i = Some (p, false).

(** Every callback in the queue was queued after the synchronous
    derivation for its props. *)
Definition queuedAfterSync (this : ImmutableListView.Instance) : Prop :=
  ∀ p, p ∈ ImmutableListView.afterInteractions this →
       (p, false) ∈ ImmutableListView.derivations this.

Lemma syncFirst_sync history p : syncFirst history → syncFirst (history ++ [(p, false)]).
Proof.
  intros Hhistory j q Hj. apply lookup_app_Some in Hj as [Hj | [_ Hj]].
  - destruct (Hhistory j q Hj) as (i & Hi & Hq). exists i. split; [ done | ].
    by apply lookup_app_l_Some.
  - apply list_lookup_singleton_Some in Hj as [_ Hj]. discriminate Hj.
Qed.

Lemma syncFirst_deferred history p :
  syncFirst history → (p, false) ∈ history → syncFirst (history ++ [(p, true)]).
Proof.
  intros Hhistory Hp j q Hj. apply lookup_app_Some in Hj as [Hj | [Hlen Hj]].
  - destruct (Hhistory j q Hj) as (i & Hi & Hq). exists i. split; [ done | ].
    by apply lookup_app_l_Some.
  - apply list_lookup_singleton_Some in Hj as [_ Hj]. simplify_eq.
    apply list_elem_of_lookup in Hp as [i Hi]. exists i. split.
    + apply lookup_lt_Some in Hi. lia.
    + by apply lookup_app_l_Some.
Qed.

Lemma setStateFromProps_history this p finished this' :
  ImmutableListView.setStateFromProps this p finished = Some this' →
  ImmutableListView.afterInteractions this' = ImmutableListView.afterInteractions this
  ∧ ImmutableListView.derivations this'
    = ImmutableListView.derivations this
      ++ (if ImmutableListView.canSetState this then [(p, finished)] else []).
Proof.
  unfold ImmutableListView.setStateFromProps.
  destruct (ImmutableListView.canSetState this); simpl.
  - destruct (ImmutableListView.displayData _ _ _); simpl; [ | done ].
    destruct (ImmutableListView.updatedDataSource _ _ _); simpl; [ | done ].
    intros H. by simplify_eq.
  - intros H. simplify_eq. by rewrite app_nil_r.
Qed.

Lemma setStateFromPropsAfterInteraction_history this p this' :
  syncFirst (ImmutableListView.derivations this) → queuedAfterSync this →
  ImmutableListView.canSetState this = true →
  ImmutableListView.setStateFromPropsAfterInteraction this p = Some this' →
  syncFirst (ImmutableListView.derivations this') ∧ queuedAfterSync this'.
Proof.
  intros Hhistory Hqueue Hlive.
  unfold ImmutableListView.setStateFromPropsAfterInteraction.
  destruct (ImmutableListView.setStateFromProps this p false) as [ sync | ] eqn:Hsync;
    [ | done ].
  apply setStateFromProps_history in Hsync as [Hq Hd]. rewrite Hlive in Hd. simpl.
  assert (queuedAfterSync sync) as Hqueue'.
  { intros q Hin. rewrite Hq in Hin. rewrite Hd. apply elem_of_app. left. by apply Hqueue. }
  destruct (JS.ge0 _) as [ [ | ] | ]; simpl; intros H; simplify_eq.
  - split; simpl.
    + rewrite Hd. by apply syncFirst_sync.
    + intros q Hin. simpl in *. apply elem_of_app in Hin as [Hin | Hin].
      * by apply Hqueue'.
      * apply list_elem_of_singleton in Hin as ->. rewrite Hd.
        apply elem_of_app. right. by apply list_elem_of_singleton.
  - split; [ | done ]. rewrite Hd. by apply syncFirst_sync.
Qed.

Lemma step_history this e this' :
  syncFirst (ImmutableListView.derivations this) → queuedAfterSync this →
  ImmutableListView.step this e = Some this' →
  syncFirst (ImmutableListView.derivations this') ∧ queuedAfterSync this'.
Proof.
  intros Hhistory Hqueue Hstep. destruct e as [ newProps | | ]; simpl in Hstep.
  - destruct (ImmutableListView.canSetState this) eqn:Hlive; [ | by simplify_eq ].
    unfold ImmutableListView.componentWillReceiveProps in Hstep.
    destruct (ImmutableListView.setStateFromPropsAfterInteraction this newProps)
      as [ after | ] eqn:Hafter; [ | done ].
    simpl in Hstep. simplify_eq.
    by destruct (setStateFromPropsAfterInteraction_history _ _ _ Hhistory Hqueue Hlive Hafter).
  - unfold ImmutableListView.runDeferred in Hstep.
    destruct (ImmutableListView.afterInteractions this) as [ | captured queue ] eqn:Hq;
      [ by simplify_eq | ].
    apply setStateFromProps_history in Hstep as [Hq' Hd]. simpl in Hq', Hd.
    assert ((captured, false) ∈ ImmutableListView.derivations this) as Hcaptured.
    { apply Hqueue. rewrite Hq. apply list_elem_of_here. }
    split.
    + rewrite Hd. destruct (ImmutableListView.canSetState this).
      * by apply syncFirst_deferred.
      * by rewrite app_nil_r.
    + intros q Hin. rewrite Hq' in Hin. rewrite Hd. apply elem_of_app. left.
      apply Hqueue. rewrite Hq. by apply list_elem_of_further.
  - by simplify_eq.
Qed.

Lemma run_history this es this' :
  syncFirst (ImmutableListView.derivations this) → queuedAfterSync this →
  ImmutableListView.run this es = Some this' →
  syncFirst (ImmutableListView.derivations this').
Proof.
  revert this. induction es as [ | e es IH ]; intros this Hhistory Hqueue Hrun;
    simpl in Hrun.
  - by simplify_eq.
  - destruct (ImmutableListView.step this e) as [ next | ] eqn:Hstep; [ | done ].
    simpl in Hrun. destruct (step_history _ _ _ Hhistory Hqueue Hstep). by eapply IH.
Qed.

(** C4.  (1) When [setStateFromPropsAfterInteraction] returns, the state is
    the one the synchronous derivation committed, and the deferred
    derivation for the same props has not run: its callback stands last in
    the InteractionManager queue.  Over the whole life of a component,
    from mounting through any prop updates, settled interactions and
    unmounting, every deferred derivation comes after a synchronous one
    for the same props.  (2) A deferred derivation displays the whole
    collection.  (3) Once a deferred derivation has run on a mounted
    component the interaction flag is false, and it stays false through
    every later event; every later derivation, on any props, displays the
    whole collection. *)
Theorem sync_precedes_deferred_and_full_never_regresses :
  ((∀ this p this',
      ImmutableListView.canSetState this = true →
      ImmutableListView.setStateFromPropsAfterInteraction this p = Some this' →
      ∃ sync,
        ImmutableListView.setStateFromProps this p false = Some sync
        ∧ ImmutableListView.state this' = ImmutableListView.state sync
        ∧ ImmutableListView.derivations this'
          = ImmutableListView.derivations this ++ [(p, false)]
        ∧ ImmutableListView.afterInteractions this'
          = ImmutableListView.afterInteractions this
            ++ (if JS.ge0 (JS.prop p "rowsDuringInteraction") is Some true then [p] else []))
   ∧ (∀ props mounted es this,
        ImmutableListView.componentWillMount (ImmutableListView.constructor props)
        = Some mounted →
        ImmutableListView.run mounted es = Some this →
        syncFirst (ImmutableListView.derivations this)))
  ∧ (∀ this p D,
       ImmutableListView.displayData this p true = Some D → D = JS.prop p "immutableData")
  ∧ (∀ this p finished,
       ImmutableListView.canSetState this = true →
       ImmutableListView.setStateFromProps this p true = Some finished →
       ImmutableListView.interactionOngoing (ImmutableListView.state finished) = false
       ∧ ∀ es later,
           ImmutableListView.run finished es = Some later →
           ImmutableListView.interactionOngoing (ImmutableListView.state later) = false
           ∧ ∀ q justFinished D,
               ImmutableListView.displayData later q justFinished = Some D →
               D = JS.prop q "immutableData").
Proof.
  split; [ split | split ].
  - intros this p this' Hlive Hafter.
    unfold ImmutableListView.setStateFromPropsAfterInteraction in Hafter.
    destruct (ImmutableListView.setStateFromProps this p false) as [ sync | ] eqn:Hsync;
      [ | done ].
    exists sync. split; [ done | ]. simpl in Hafter.
    apply setStateFromProps_history in Hsync as [Hqueue Hcalls].
    rewrite Hlive in Hcalls.
    destruct (JS.ge0 _) as [ [ | ] | ]; simpl in Hafter; simplify_eq; simpl.
    + by rewrite Hqueue.
    + by rewrite app_nil_r.
  - intros props mounted es this Hmount Hrun.
    unfold ImmutableListView.componentWillMount in Hmount.
    apply setStateFromPropsAfterInteraction_history in Hmount as [Hhistory Hqueue].
    + by eapply run_history.
    + intros j p Hj. simpl in Hj. by rewrite lookup_nil in Hj.
    + intros p Hp. simpl in Hp. by apply elem_of_nil in Hp.
    + done.
  - intros this p D. unfold ImmutableListView.displayData.
    destruct (JS.ge0 _) as [ ge | ]; simpl; [ | done ].
    rewrite andb_false_r. congruence.
  - intros this p finished Hlive Hdone.
    apply setStateFromProps_flags in Hdone as [_ Hflag].
    rewrite Hlive in Hflag. simpl in Hflag. split; [ done | ].
    intros es later Hrun.
    pose proof (run_keeps_flag_cleared _ _ _ Hflag Hrun) as Hlater.
    split; [ done | ]. intros q justFinished D. by apply displayData_flag_cleared.
Qed.

Lemma sync_precedes_deferred_and_full_never_regresses_witness :
  match ImmutableListView.setStateFromProps mountedExample twoDuringInteraction true with
  | Some finished =>
      ImmutableListView.interactionOngoing (ImmutableListView.state finished) = false
      ∧ ImmutableListView.displayData finished twoDuringInteraction false = Some threeRows
  | None => False
  end.
Proof.
  destruct (ImmutableListView.setStateFromProps mountedExample twoDuringInteraction true)
    as [ finished | ] eqn:Hdone.
  - destruct (proj2 (proj2 sync_precedes_deferred_and_full_never_regresses)
                mountedExample twoDuringInteraction finished eq_refl Hdone)
      as [Hflag Hlater].
    split; [ exact Hflag | ].
    unfold ImmutableListView.displayData. rewrite Hflag. reflexivity.
  - discriminate Hdone.
Defined.

(** ** What EmptyListView passes on (C8) *)

(** Membership of a literal in a literal list, and its negation. *)
Ltac in_list := repeat first [ apply list_elem_of_here | apply list_elem_of_further ].
Ltac not_in_list :=
  rewrite ?not_elem_of_cons; repeat split; try discriminate; try apply not_elem_of_nil.
Ltac absurd_in H :=
  repeat (apply elem_of_cons in H as [H | H]; [ discriminate H | ]);
  by apply elem_of_nil in H.

(** [render] delegates to ImmutableListView with [listData] as the data,
    and every prop the component received arrives unchanged, save the props
    named in [consumed] (and the data itself). *)
Definition passesThroughAllBut (consumed : list string) (this : EmptyListView.Instance)
    : Prop :=
  ∃ q, EmptyListView.render this = ImmutableListViewElement q
       ∧ q !! "immutableData" = Some (EmptyListView.listData this)
       ∧ ∀ k v, EmptyListView.props this !! k = Some v →
                k ∉ consumed → k ≠ "immutableData" → q !! k = Some v.

Lemma lookup_rest ks (o : Props) k :
  JS.rest ks o !! k = if decide (k ∈ ks) then None else o !! k.
Proof.
  unfold JS.rest. case_decide.
  - by apply lookup_foldr_delete.
  - by apply lookup_foldr_delete_not_elem_of.
Qed.

(** The props of the element [EmptyListView.render] returns. *)
Definition delegatedProps (this : EmptyListView.Instance) : Props :=
  match EmptyListView.render this with
  | ImmutableListViewElement q => q
  | _ => ∅
  end.

Lemma EmptyListView_render_delegates this :
  EmptyListView.render this = ImmutableListViewElement (delegatedProps this).
Proof. reflexivity. Qed.

Definition consumedByEmptyListView : list string :=
  ["renderEmpty"; "renderEmptyInList"; "renderSectionHeader"; "emptyText"].

Lemma delegatedProps_data this :
  delegatedProps this !! "immutableData" = Some (EmptyListView.listData this).
Proof. apply lookup_insert_eq. Qed.

Lemma delegatedProps_consumed this k :
  k ∈ consumedByEmptyListView → delegatedProps this !! k = None.
Proof.
  intros Hk. unfold delegatedProps. simpl.
  rewrite lookup_insert_ne.
  - unfold JS.spread. rewrite lookup_union, lookup_singleton.
    unfold EmptyListView.passThroughProps. rewrite lookup_rest.
    rewrite decide_True by exact Hk. rewrite decide_False; [ done | ].
    intros Heq. subst k. unfold consumedByEmptyListView in Hk. absurd_in Hk.
  - intros Heq. subst k. unfold consumedByEmptyListView in Hk. absurd_in Hk.
Qed.

Lemma delegatedProps_other this k :
  k ≠ "immutableData" → k ∉ consumedByEmptyListView →
  delegatedProps this !! k =
  match EmptyListView.props this !! k with
  | Some v => Some v
  | None => if decide (k = "renderRow")
            then Some (VRenderRowOfEmptyListView (EmptyListView.props this))
            else None
  end.
Proof.
  intros Hdata Hk. unfold delegatedProps. simpl.
  rewrite lookup_insert_ne by done.
  unfold JS.spread. rewrite lookup_union, lookup_singleton.
  unfold EmptyListView.passThroughProps. rewrite lookup_rest.
  rewrite decide_False by exact Hk.
  destruct (EmptyListView.props this !! k); simpl; repeat case_decide; by subst.
Qed.

(** C8, as stated, fails: a section-header renderer the placeholder
    received does not reach the list component. *)
Lemma renderSectionHeader_is_dropped :
  ¬ passesThroughAllBut ["renderEmpty"; "renderEmptyInList"; "emptyText"]
      (EmptyListView.constructor {[ "renderSectionHeader" := VFunc 1 ]}).
Proof.
  intros (q & Hrender & _ & Hpass).
  rewrite EmptyListView_render_delegates in Hrender. simplify_eq.
  specialize (Hpass "renderSectionHeader" (VFunc 1) eq_refl).
  rewrite delegatedProps_consumed in Hpass.
  - discriminate Hpass; [ not_in_list | done ].
  - unfold consumedByEmptyListView. in_list.
Qed.

(** C8, amended.  [render] delegates to ImmutableListView with [listData]
    as the data.  Four props are consumed and do not arrive: renderEmpty,
    renderEmptyInList, renderSectionHeader and emptyText.  Every other prop
    received arrives unchanged; a renderRow showing emptyText is supplied
    when none was received; nothing else is added. *)
Theorem EmptyListView_render_passes_through (this : EmptyListView.Instance) :
  passesThroughAllBut ["renderEmpty"; "renderEmptyInList"; "renderSectionHeader"; "emptyText"]
    this
  ∧ ∃ q, EmptyListView.render this = ImmutableListViewElement q
         ∧ q !! "renderEmpty" = None ∧ q !! "renderEmptyInList" = None
         ∧ q !! "renderSectionHeader" = None ∧ q !! "emptyText" = None
         ∧ (EmptyListView.props this !! "renderRow" = None →
            q !! "renderRow" = Some (VRenderRowOfEmptyListView (EmptyListView.props this)))
         ∧ ∀ k v, q !! k = Some v →
                  k = "immutableData" ∨ EmptyListView.props this !! k = Some v
                  ∨ (k = "renderRow" ∧ EmptyListView.props this !! k = None).
Proof.
  split.
  - exists (delegatedProps this). split; [ reflexivity | ].
    split; [ apply delegatedProps_data | ].
    intros k v Hk Hconsumed Hdata.
    rewrite delegatedProps_other by done. by rewrite Hk.
  - exists (delegatedProps this). split; [ reflexivity | ].
    split; [ | split; [ | split; [ | split; [ | split ] ] ] ].
    1-4: apply delegatedProps_consumed; unfold consumedByEmptyListView; in_list.
    + intros Hrow. rewrite delegatedProps_other; [ | done | ].
      * by rewrite Hrow.
      * unfold consumedByEmptyListView. not_in_list.
    + intros k v Hv.
      destruct (decide (k = "immutableData")) as [ | Hdata ]; [ by left | right ].
      destruct (decide (k ∈ consumedByEmptyListView)) as [ Hk | Hk ].
      * by rewrite delegatedProps_consumed in Hv.
      * rewrite delegatedProps_other in Hv by done.
        destruct (EmptyListView.props this !! k); [ by left | right ].
        by case_decide.
Qed.

(** ** Default props *)

Lemma prop_resolveDefaultProps (defaultProps props : Props) k :
  JS.prop (React.resolveDefaultProps defaultProps props) k
  = match JS.prop props k with
    | VUndefined => JS.prop defaultProps k
    | v => v
    end.
Proof.
  unfold JS.prop, React.resolveDefaultProps. rewrite lookup_merge.
  destruct (props !! k) as [ [] | ], (defaultProps !! k); reflexivity.
Qed.



Lemma ImmutableListView_defaultProps_foreign defaults k :
  k ∉ ["sectionHeaderHasChanged"; "enableEmptySections"; "removeClippedSubviews";
       "renderEmptyInList"] →
  ImmutableListView.defaultProps defaults !! k = defaults !! k.
Proof.
  rewrite !not_elem_of_cons. intros (? & ? & ? & ? & _).
  unfold ImmutableListView.defaultProps, JS.spread.
  rewrite lookup_union_r; [ done | ].
  rewrite !lookup_insert_ne by done. by apply lookup_singleton_ne.
Qed.



(** ** The empty branch (C1, C7) *)

(** A collection without entries is empty whatever enableEmptySections
    says. *)
Lemma isEmptyListView_no_entries C enableEmptySections :
  Immutable.isEmpty C = Some true →
  utils.isEmptyListView C enableEmptySections = Some true.
Proof.
  unfold Immutable.isEmpty, utils.isEmptyListView.
  destruct (Immutable.entries C) as [ es | ]; simpl; [ | done ].
  intros H. simplify_eq. by rewrite H.
Qed.











Definition emptyList : Props := {[ "immutableData" := VList [] ]}.


(** ** The composition of the two components (C9, C10) *)

(** While the collection is not empty for [utils.isEmptyListView], the
    empty branch is not taken. *)
Lemma renderEmpty_not_empty host p :
  utils.isEmptyListView (JS.prop p "immutableData") (JS.prop p "enableEmptySections")
  = Some false →
  ImmutableListView.renderEmpty host p = Some None.
Proof.
  intros Hne. unfold ImmutableListView.renderEmpty. rewrite Hne.
  by destruct (JS.truthy (JS.or _ _)).
Qed.

Lemma render_not_empty host (this : ImmutableListView.Instance) :
  utils.isEmptyListView (JS.prop (ImmutableListView.props this) "immutableData")
    (JS.prop (ImmutableListView.props this) "enableEmptySections") = Some false →
  ImmutableListView.render host this
  = Some (ListView (ImmutableListView.dataSource (ImmutableListView.state this))
                   (ImmutableListView.passThroughProps (ImmutableListView.props this))).
Proof.
  intros Hne. unfold ImmutableListView.render.
  by rewrite (renderEmpty_not_empty host _ Hne).
Qed.

(** The placeholders React can hold: mounted, then updated any number of
    times. *)
Inductive PlaceholderReachable : EmptyListView.Instance → Prop :=
| reachable_mounted props this :
    EmptyListView.componentWillMount (EmptyListView.constructor props) = Some this →
    PlaceholderReachable this
| reachable_updated this nextProps this' :
    PlaceholderReachable this →
    EmptyListView.componentWillReceiveProps this nextProps = Some this' →
    PlaceholderReachable this'.

(** The list data of a placeholder is always one row. *)
Lemma placeholder_listData this :
  PlaceholderReachable this →
  ∃ a b c, EmptyListView.listData this = VList [VList [a; b; c]].
Proof.
  induction 1 as [ props this Hmount | this nextProps this' _ IH Hupdate ].
  - unfold EmptyListView.componentWillMount, EmptyListView.setListDataFromProps in Hmount.
    simpl in Hmount. simplify_eq. simpl. eauto.
  - destruct IH as (a & b & c & Hdata).
    unfold EmptyListView.componentWillReceiveProps, EmptyListView.setListDataFromProps
      in Hupdate.
    rewrite Hdata in Hupdate. simpl in Hupdate. simplify_eq. simpl. eauto.
Qed.

Lemma isEmptyListView_one_row a b c enableEmptySections :
  utils.isEmptyListView (VList [VList [a; b; c]]) enableEmptySections = Some false.
Proof. unfold utils.isEmptyListView. simpl. by rewrite andb_false_r. Qed.

(** Elements that mount without instantiating a component. *)
Definition isLeaf (e : Element) : bool :=
  match e with
  | Text _ _ | ListView _ _ | HostElement _ _ => true
  | EmptyListViewElement _ | ImmutableListViewElement _ => false
  end.

Lemma call_leaf host f args e :
  call host f args = Some (Some e) → isLeaf e = true.
Proof.
  revert args.
  induction f as [ | | b | n | s | r | items _ | entries _ | | tp | g tp IH ]
    using Value_nested_ind;
    intros args Hcall; simpl in Hcall; try discriminate.
  - destruct (host r args); by simplify_eq.
  - by simplify_eq.
  - by eapply IH.
Qed.

(** ImmutableListView renders a leaf or the placeholder, never itself. *)
Lemma render_leaf_or_placeholder host this e :
  ImmutableListView.render host this = Some e →
  isLeaf e = true ∨ ∃ q, e = EmptyListViewElement q.
Proof.
  unfold ImmutableListView.render, ImmutableListView.renderEmpty.
  destruct (if JS.truthy (JS.or _ _) then _ else _) as [ [ | ] | ]; simpl; [ | | done ].
  - destruct (JS.truthy (JS.prop _ "renderEmpty")).
    + destruct (JS.typeof_string _); simpl.
      * intros H. simplify_eq. by left.
      * destruct (call host _ _) as [ [ el | ] | ] eqn:Hcall; simpl; intros H; simplify_eq.
        -- left. by eapply call_leaf.
        -- by left.
    + destruct (JS.truthy (JS.prop _ "renderEmptyInList")).
      * destruct (JS.typeof_string _); simpl; intros H; simplify_eq; right; eauto.
      * simpl. intros H. simplify_eq. by left.
  - intros H. simplify_eq. by left.
Qed.

Lemma setStateFromProps_props this p finished this' :
  ImmutableListView.setStateFromProps this p finished = Some this' →
  ImmutableListView.props this' = ImmutableListView.props this.
Proof.
  unfold ImmutableListView.setStateFromProps.
  destruct (negb _); [ by intros; simplify_eq | ].
  destruct (ImmutableListView.displayData _ _ _); simpl; [ | done ].
  destruct (ImmutableListView.updatedDataSource _ _ _); simpl; [ | done ].
  intros H. by simplify_eq.
Qed.

Lemma componentWillMount_props this this' :
  ImmutableListView.componentWillMount this = Some this' →
  ImmutableListView.props this' = ImmutableListView.props this.
Proof.
  unfold ImmutableListView.componentWillMount,
    ImmutableListView.setStateFromPropsAfterInteraction.
  destruct (ImmutableListView.setStateFromProps _ _ _) as [ sync | ] eqn:Hsync; [ | done ].
  apply setStateFromProps_props in Hsync. simpl in *.
  destruct (JS.ge0 _) as [ [ | ] | ]; simpl; intros H; by simplify_eq.
Qed.

(** The list component a placeholder delegates to gets a one-row
    collection, so it renders the widget. *)
Lemma inner_list_renders_ListView host defaults placeholder (inner : ImmutableListView.Instance) :
  PlaceholderReachable placeholder →
  ImmutableListView.props inner
  = React.resolveDefaultProps (ImmutableListView.defaultProps defaults)
      (delegatedProps placeholder) →
  ImmutableListView.renderEmpty host (ImmutableListView.props inner) = Some None
  ∧ ImmutableListView.render host inner
    = Some (ListView (ImmutableListView.dataSource (ImmutableListView.state inner))
                     (ImmutableListView.passThroughProps (ImmutableListView.props inner))).
Proof.
  intros Hreach Hprops.
  destruct (placeholder_listData _ Hreach) as (a & b & c & Hdata).
  assert (utils.isEmptyListView (JS.prop (ImmutableListView.props inner) "immutableData")
            (JS.prop (ImmutableListView.props inner) "enableEmptySections") = Some false)
    as Hne.
  { rewrite Hprops, (prop_resolveDefaultProps _ _ "immutableData").
    unfold JS.prop at 1. rewrite delegatedProps_data, Hdata. simpl.
    apply isEmptyListView_one_row. }
  split; [ by apply renderEmpty_not_empty | by apply render_not_empty ].
Qed.

Lemma mount_leaf host defaults fuel e :
  isLeaf e = true → Reconciler.mount host defaults fuel e = Reconciler.Mounted e.
Proof. destruct e, fuel; simpl; intros H; done. Qed.

Lemma mount_ImmutableListViewElement host defaults fuel p :
  Reconciler.mount host defaults (S fuel) (ImmutableListViewElement p)
  = match Reconciler.mountImmutableListView host defaults p with
    | Some (_, child) => Reconciler.mount host defaults fuel child
    | None => Reconciler.Threw
    end.
Proof. reflexivity. Qed.

Lemma mount_EmptyListViewElement host defaults fuel p :
  Reconciler.mount host defaults (S fuel) (EmptyListViewElement p)
  = match Reconciler.mountEmptyListView defaults p with
    | Some (_, child) => Reconciler.mount host defaults fuel child
    | None => Reconciler.Threw
    end.
Proof. reflexivity. Qed.

(** Fuel beyond what a mount needs changes nothing. *)
Lemma mount_more_fuel host defaults fuel e :
  Reconciler.mount host defaults fuel e ≠ Reconciler.OutOfFuel →
  Reconciler.mount host defaults (S fuel) e = Reconciler.mount host defaults fuel e.
Proof.
  revert e. induction fuel as [ | fuel IH ]; intros e Hdone.
  - by destruct e.
  - destruct e as [ | | p | p | ]; try reflexivity.
    + rewrite mount_EmptyListViewElement in Hdone.
      rewrite !mount_EmptyListViewElement.
      destruct (Reconciler.mountEmptyListView defaults p) as [ [? child] | ]; [ | done ].
      by apply IH.
    + rewrite mount_ImmutableListViewElement in Hdone.
      rewrite !mount_ImmutableListViewElement.
      destruct (Reconciler.mountImmutableListView host defaults p) as [ [? child] | ];
        [ | done ].
      by apply IH.
Qed.

(** C9.  A placeholder hands the list component a collection of one row
    and none of renderEmpty, renderEmptyInList, emptyText; the list
    component then never takes the empty branch, whatever its state: it
    renders the widget.  Hence mounting an ImmutableListView element
    instantiates at most three components (list, placeholder, list): it
    never runs out of fuel with three, and more fuel gives the same
    result. *)
Theorem placeholder_composition_is_one_level (host : Host) (defaults : Props) :
  (∀ placeholder, PlaceholderReachable placeholder →
     ∃ q row,
       EmptyListView.render placeholder = ImmutableListViewElement q
       ∧ JS.prop q "immutableData" = VList [row]
       ∧ q !! "renderEmpty" = None ∧ q !! "renderEmptyInList" = None
       ∧ q !! "emptyText" = None
       ∧ ∀ inner : ImmutableListView.Instance,
           ImmutableListView.props inner
           = React.resolveDefaultProps (ImmutableListView.defaultProps defaults) q →
           ImmutableListView.renderEmpty host (ImmutableListView.props inner) = Some None
           ∧ ImmutableListView.render host inner
             = Some (ListView
                       (ImmutableListView.dataSource (ImmutableListView.state inner))
                       (ImmutableListView.passThroughProps (ImmutableListView.props inner))))
  ∧ ∀ p, Reconciler.mount host defaults 3 (ImmutableListViewElement p)
         ≠ Reconciler.OutOfFuel
         ∧ ∀ fuel, (3 ≤ fuel)%nat →
                   Reconciler.mount host defaults fuel (ImmutableListViewElement p)
                   = Reconciler.mount host defaults 3 (ImmutableListViewElement p).
Proof.
  split.
  - intros placeholder Hreach.
    destruct (placeholder_listData _ Hreach) as (a & b & c & Hdata).
    exists (delegatedProps placeholder), (VList [a; b; c]).
    split; [ reflexivity | ]. split.
    { unfold JS.prop. by rewrite delegatedProps_data, Hdata. }
    split; [ | split; [ | split ] ].
    1-3: apply delegatedProps_consumed; unfold consumedByEmptyListView; in_list.
    intros inner Hprops. by eapply inner_list_renders_ListView.
  - intros p.
    assert (Reconciler.mount host defaults 3 (ImmutableListViewElement p)
            ≠ Reconciler.OutOfFuel) as Hthree; [ | split; [ exact Hthree | ] ].
    2: { intros fuel Hfuel. induction Hfuel as [ | fuel _ IH ]; [ done | ].
         rewrite mount_more_fuel; [ exact IH | by rewrite IH ]. }
    rewrite mount_ImmutableListViewElement.
    destruct (Reconciler.mountImmutableListView host defaults p)
      as [ [this child] | ] eqn:Houter; [ | done ].
    unfold Reconciler.mountImmutableListView in Houter.
    destruct (ImmutableListView.componentWillMount _) as [ mounted | ]; [ | done ].
    simpl in Houter.
    destruct (ImmutableListView.render host mounted) as [ e | ] eqn:Hrender; [ | done ].
    simpl in Houter. simplify_eq.
    apply render_leaf_or_placeholder in Hrender as [ Hleaf | (q & ->) ].
    { by rewrite mount_leaf. }
    rewrite mount_EmptyListViewElement.
    destruct (Reconciler.mountEmptyListView defaults q)
      as [ [placeholder child] | ] eqn:Hplaceholder; [ | done ].
    unfold Reconciler.mountEmptyListView in Hplaceholder.
    destruct (EmptyListView.componentWillMount _) as [ mountedPlaceholder | ] eqn:Hmount;
      [ | done ].
    simpl in Hplaceholder. simplify_eq.
    assert (PlaceholderReachable placeholder) as Hreach by (by econstructor).
    rewrite EmptyListView_render_delegates, mount_ImmutableListViewElement.
    destruct (Reconciler.mountImmutableListView host defaults (delegatedProps placeholder))
      as [ [inner child] | ] eqn:Hinner; [ | done ].
    unfold Reconciler.mountImmutableListView in Hinner.
    destruct (ImmutableListView.componentWillMount _) as [ mountedInner | ] eqn:HmountInner;
      [ | done ].
    simpl in Hinner.
    apply componentWillMount_props in HmountInner. simpl in HmountInner.
    destruct (inner_list_renders_ListView host defaults placeholder mountedInner Hreach
                HmountInner) as [_ Hwidget].
    rewrite Hwidget in Hinner. simpl in Hinner. by simplify_eq.
Qed.

Lemma placeholder_composition_is_one_level_witness :
  match EmptyListView.componentWillMount (EmptyListView.constructor emptyList) with
  | Some placeholder =>
      ∃ q row,
        EmptyListView.render placeholder = ImmutableListViewElement q
        ∧ JS.prop q "immutableData" = VList [row]
        ∧ ImmutableListView.renderEmpty (λ _ _, true)
            (React.resolveDefaultProps (ImmutableListView.defaultProps ∅) q) = Some None
  | None => False
  end.
Proof.
  destruct (EmptyListView.componentWillMount (EmptyListView.constructor emptyList))
    as [ placeholder | ] eqn:Hmount; [ | discriminate Hmount ].
  destruct (proj1 (placeholder_composition_is_one_level (λ _ _, true) ∅) placeholder
              (reachable_mounted _ _ Hmount))
    as (q & row & Hrender & Hdata & _ & _ & _ & Hinner).
  exists q, row. split; [ exact Hrender | ]. split; [ exact Hdata | ].
  exact (proj1 (Hinner (ImmutableListView.constructor
                          (React.resolveDefaultProps (ImmutableListView.defaultProps ∅) q))
                  eq_refl)).
Defined.







(** * Further properties of the two components *)

(** ** The derived data source *)

(** The entries a derivation displays: the first [n] while
    rowsDuringInteraction is [n >= 0], the interaction is ongoing and has
    not just finished; all of them otherwise. *)
Definition shownEntries (this : ImmutableListView.Instance) (p : Props) (finished : bool)
    (es : list (Key * Value)) : list (Key * Value) :=
  match JS.prop p "rowsDuringInteraction" with
  | VNum n =>
      if (0 <=? n) && ImmutableListView.interactionOngoing (ImmutableListView.state this)
         && negb finished
      then take (Z.to_nat n) es
      else es
  | _ => es
  end.

Lemma displayData_entries this p finished es :
  Immutable.entries (JS.prop p "immutableData") = Some es →
  is_Some (JS.ge0 (JS.prop p "rowsDuringInteraction")) →
  ∃ D, ImmutableListView.displayData this p finished = Some D
       ∧ Immutable.entries D = Some (shownEntries this p finished es)
       ∧ ((∃ n, 0 ≤ n ∧ Immutable.slice (JS.prop p "immutableData") 0 n = Some D)
          ∨ D = JS.prop p "immutableData").
Proof.
  intros Hes [ge Hge]. unfold ImmutableListView.displayData, shownEntries.
  destruct (JS.prop p "rowsDuringInteraction") as [ | | | n | | | | | | | ];
    simpl in Hge; try discriminate; simplify_eq; simpl.
  - eauto.
  - destruct ((0 <=? n) && _ && _) eqn:Hpartial.
    + apply andb_true_iff in Hpartial as [Hpartial _].
      apply andb_true_iff in Hpartial as [Hn _]. apply Z.leb_le in Hn.
      destruct (slice_prefix _ es n Hes Hn) as (D & Hslice & HD & _).
      exists D. split; [ done | ]. split; [ done | ]. left. eauto.
    + eauto.
Qed.

(** On a mounted component a derivation over a collection succeeds, and
    this is the instance it returns. *)
Lemma setStateFromProps_derives this p finished D es :
  ImmutableListView.canSetState this = true →
  ImmutableListView.displayData this p finished = Some D →
  Immutable.entries D = Some es →
  ImmutableListView.setStateFromProps this p finished
  = Some (ImmutableListView.setState this
            (ImmutableListView.mkState
               (if JS.truthy (JS.prop p "renderSectionHeader")
                then ListViewDataSource.cloneWithRowsAndSections
                       (ImmutableListView.dataSource (ImmutableListView.state this))
                       (Blob D) es.*1
                       (map (λ section, default [] (Immutable.keySeq section)) es.*2)
                else ListViewDataSource.cloneWithRows
                       (ImmutableListView.dataSource (ImmutableListView.state this))
                       D es.*1)
               (if finished then false
                else ImmutableListView.interactionOngoing (ImmutableListView.state this)))
            (p, finished)).
Proof.
  intros Hlive Hdisplay HD. unfold ImmutableListView.setStateFromProps.
  rewrite Hlive, Hdisplay. simpl. by rewrite (updatedDataSource_collection _ p D _ HD).
Qed.










Lemma assoc_take (n : nat) es k :
  k ∈ (take n es).*1 → Immutable.assoc k (take n es) = Immutable.assoc k es.
Proof.
  revert n. induction es as [ | [k' x] es IH ]; intros [ | n ]; simpl; intros Hk;
    try by apply elem_of_nil in Hk.
  case_decide; [ done | ]. apply IH.
  apply elem_of_cons in Hk as [ -> | Hk ]; done.
Qed.

(** A row of the prefix [c.slice(0, n)] holds what the row of the same key
    holds in [c]. *)
Lemma get_slice_prefix C n D keys k :
  0 ≤ n → Immutable.slice C 0 n = Some D →
  Immutable.keySeq D = Some keys → k ∈ keys →
  Immutable.get D k = Immutable.get C k.
Proof.
  intros Hn Hslice Hkeys Hk. unfold Immutable.keySeq in Hkeys.
  destruct C; try discriminate; simpl in Hslice; simplify_eq;
    rewrite sub_prefix in * by done; simpl in Hkeys; simplify_eq.
  - apply elem_of_keys_indexed in Hk as (i & -> & Hi).
    rewrite !get_List_at. rewrite lookup_take_lt; [ done | ].
    rewrite length_take in Hi. lia.
  - simpl. by rewrite assoc_take.
Qed.

(** X3.  Without a section-header renderer the derived data source is
    flat: its one section [s1] lists the keys of the entries on display, in
    order, and the component's getRowData reads for each of those rows
    the value the collection holds under that key.  While
    rowsDuringInteraction = n caps the display the source holds
    min(n, size) rows, the same rows the full collection starts with. *)
Theorem flat_rows_are_a_prefix_with_the_collections_data
    (this : ImmutableListView.Instance) (p : Props) (finished : bool)
    (C : Value) (es : list (Key * Value)) :
  ImmutableListView.canSetState this = true →
  JS.prop p "immutableData" = C →
  Immutable.entries C = Some es →
  is_Some (JS.ge0 (JS.prop p "rowsDuringInteraction")) →
  JS.truthy (JS.prop p "renderSectionHeader") = false →
  ∃ this',
    ImmutableListView.setStateFromProps this p finished = Some this'
    ∧ let ds := ImmutableListView.dataSource (ImmutableListView.state this') in
      let shown := shownEntries this p finished es in
      ListViewDataSource.sectionIdentities ds = [KStr "s1"]
      ∧ ListViewDataSource.rowIdentities ds = [shown.*1]
      ∧ ListViewDataSource.getRowCount ds = length shown
      ∧ (∀ n, JS.prop p "rowsDuringInteraction" = VNum n → 0 ≤ n →
              ImmutableListView.interactionOngoing (ImmutableListView.state this) = true →
              finished = false →
              shown = take (Z.to_nat n) es
              ∧ length shown = Nat.min (Z.to_nat n) (length es))
      ∧ ∀ k, k ∈ shown.*1 →
             ImmutableListView.getRowData (ListViewDataSource.dataBlob ds) (KStr "s1") k
             = Immutable.get C k.
Proof.
  intros Hlive HC Hes Hge Hflat. subst C.
  destruct (displayData_entries this p finished es Hes Hge) as (D & Hdisplay & HD & Horigin).
  eexists. split.
  { rewrite (setStateFromProps_derives this p finished D _ Hlive Hdisplay HD).
    rewrite Hflat. reflexivity. }
  simpl. split; [ done | ]. split; [ done | ]. split.
  { unfold ListViewDataSource.getRowCount. simpl. rewrite length_fmap. lia. }
  split.
  - intros n Hrows Hn Hongoing ->. unfold shownEntries. rewrite Hrows, Hongoing.
    destruct (Z.leb_spec 0 n); [ | lia ]. simpl. split; [ done | ].
    by rewrite length_take.
  - intros k Hk. rewrite getRowData_flat.
    destruct Horigin as [(n & Hn & Hslice) | ->]; [ | done ].
    eapply get_slice_prefix; eauto. unfold Immutable.keySeq. by rewrite HD.
Qed.

Lemma flat_rows_are_a_prefix_with_the_collections_data_witness :
  ∃ this',
    ImmutableListView.setStateFromProps mountedExample twoDuringInteraction false = Some this'
    ∧ ListViewDataSource.rowIdentities
        (ImmutableListView.dataSource (ImmutableListView.state this'))
      = [[KNum 0; KNum 1]].
Proof.
  destruct (flat_rows_are_a_prefix_with_the_collections_data mountedExample
              twoDuringInteraction false threeRows
              [(KNum 0, VStr "a"); (KNum 1, VStr "b"); (KNum 2, VStr "c")]
              eq_refl eq_refl eq_refl (ex_intro _ true eq_refl) eq_refl)
    as (this' & Hderive & _ & Hrows & _).
  exists this'. split; [ exact Hderive | exact Hrows ].
Defined.





(** ** The life of a component under well-typed props *)

(** Modelled from the spec: utils.isImmutableIterable is not among the
    sources.  The input must be an instance of Immutable.Iterable. *)
Definition utils_isImmutableIterable (v : Value) : bool := Immutable.isIterable v.

(** The validator of [propTypes.immutableData]: the message of the Error
    it returns, or [None] for undefined. *)
Definition propTypes_immutableData (props : Props) (propName componentName : string)
    : option string :=
  if negb (utils_isImmutableIterable (JS.prop props propName))
  then Some (String.append "Invalid prop "
               (String.append propName
                  (String.append " supplied to "
                     (String.append componentName
                        ": Must be instance of Immutable.Iterable."))))
  else None.

(** Props the lifecycle is written for: immutableData passes its
    validator, and rowsDuringInteraction is a number or left out. *)
Definition wellTyped (p : Props) : Prop :=
  propTypes_immutableData p "immutableData" "ImmutableListView" = None
  ∧ is_Some (JS.ge0 (JS.prop p "rowsDuringInteraction")).

Lemma wellTyped_entries p :
  wellTyped p → ∃ es, Immutable.entries (JS.prop p "immutableData") = Some es.
Proof.
  intros [Hdata _]. unfold propTypes_immutableData, utils_isImmutableIterable in Hdata.
  destruct (JS.prop p "immutableData"); simpl in *; try discriminate; eauto.
Qed.

(** What the data source of a full derivation from [p] holds. *)
Definition holdsWhole (ds : DataSource) (p : Props) : Prop :=
  ∃ es, Immutable.entries (JS.prop p "immutableData") = Some es
        ∧ if JS.truthy (JS.prop p "renderSectionHeader")
          then ListViewDataSource.dataBlob ds = Blob (JS.prop p "immutableData")
               ∧ ListViewDataSource.sectionIdentities ds = es.*1
               ∧ ListViewDataSource.rowIdentities ds
                 = map (λ section, default [] (Immutable.keySeq section)) es.*2
          else ListViewDataSource.dataBlob ds = S1 (JS.prop p "immutableData")
               ∧ ListViewDataSource.sectionIdentities ds = [KStr "s1"]
               ∧ ListViewDataSource.rowIdentities ds = [es.*1].

(** A derivation from well-typed props does not throw. *)
Lemma setStateFromProps_wellTyped this p finished :
  wellTyped p →
  ∃ this',
    ImmutableListView.setStateFromProps this p finished = Some this'
    ∧ ImmutableListView.props this' = ImmutableListView.props this
    ∧ ImmutableListView.canSetState this' = ImmutableListView.canSetState this
    ∧ ImmutableListView.afterInteractions this' = ImmutableListView.afterInteractions this
    ∧ (ImmutableListView.canSetState this = true → finished = true →
       ImmutableListView.interactionOngoing (ImmutableListView.state this') = false
       ∧ holdsWhole (ImmutableListView.dataSource (ImmutableListView.state this')) p).
Proof.
  intros Hp. destruct (wellTyped_entries p Hp) as [es Hes]. destruct Hp as [_ Hge].
  destruct (ImmutableListView.canSetState this) eqn:Hlive.
  - destruct (displayData_entries this p finished es Hes Hge) as (D & Hdisplay & HD & _).
    eexists. split; [ exact (setStateFromProps_derives this p finished D _ Hlive Hdisplay HD) | ].
    simpl. repeat (split; [ done | ]). intros _ ->. split; [ done | ].
    assert (D = JS.prop p "immutableData") as ->.
    { revert Hdisplay. unfold ImmutableListView.displayData.
      destruct (JS.ge0 _); simpl; [ | done ]. rewrite andb_false_r. congruence. }
    exists es. split; [ done | ].
    assert (shownEntries this p true es = es) as ->.
    { unfold shownEntries. destruct (JS.prop p "rowsDuringInteraction"); try done.
      by rewrite andb_false_r. }
    by destruct (JS.truthy _).
  - exists this. split; [ by apply setStateFromProps_unmounted | ].
    repeat (split; [ done | ]). done.
Qed.

Lemma run_app this es1 es2 :
  ImmutableListView.run this (es1 ++ es2)
  = ImmutableListView.run this es1 ≫= λ mid, ImmutableListView.run mid es2.
Proof.
  revert this. induction es1 as [ | e es1 IH ]; intros this; simpl; [ done | ].
  destruct (ImmutableListView.step this e); simpl; [ apply IH | done ].
Qed.











Lemma settle_wellTyped this c queue :
  ImmutableListView.canSetState this = true →
  ImmutableListView.afterInteractions this = c :: queue →
  wellTyped c →
  ∃ this',
    ImmutableListView.step this ImmutableListView.InteractionsSettle = Some this'
    ∧ ImmutableListView.props this' = ImmutableListView.props this
    ∧ ImmutableListView.canSetState this' = true
    ∧ ImmutableListView.afterInteractions this' = queue
    ∧ ImmutableListView.interactionOngoing (ImmutableListView.state this') = false
    ∧ holdsWhole (ImmutableListView.dataSource (ImmutableListView.state this')) c.
Proof.
  intros Hmounted Hqueue Hc. simpl. unfold ImmutableListView.runDeferred. rewrite Hqueue.
  destruct (setStateFromProps_wellTyped
              (ImmutableListView.mkInstance (ImmutableListView.props this)
                 (ImmutableListView.state this) (ImmutableListView.canSetState this)
                 queue (ImmutableListView.derivations this)) c true Hc)
    as (this' & Hthis' & Hp & Hlive & Hq & Hfull).
  simpl in Hp, Hlive, Hq, Hfull. destruct (Hfull Hmounted eq_refl) as [Hflag Hwhole].
  exists this'. by rewrite Hp, Hlive, Hq.
Qed.















(** ** What render returns *)

(** X9.  When neither renderEmpty nor renderEmptyInList is truthy the
    empty branch is switched off: [render] returns the list widget
    whatever the data is, empty or not, and the emptiness of the data is
    not even looked at. *)
Theorem falsy_options_switch_the_empty_branch_off host (this : ImmutableListView.Instance) :
  JS.truthy (JS.prop (ImmutableListView.props this) "renderEmpty") = false →
  JS.truthy (JS.prop (ImmutableListView.props this) "renderEmptyInList") = false →
  ImmutableListView.renderEmpty host (ImmutableListView.props this) = Some None
  ∧ ImmutableListView.render host this
    = Some (ListView (ImmutableListView.dataSource (ImmutableListView.state this))
                     (ImmutableListView.passThroughProps (ImmutableListView.props this))).
Proof.
  intros Hstandalone HinList.
  assert (ImmutableListView.renderEmpty host (ImmutableListView.props this) = Some None)
    as Hnull.
  { unfold ImmutableListView.renderEmpty, JS.or. by rewrite Hstandalone, HinList. }
  split; [ done | ]. unfold ImmutableListView.render. by rewrite Hnull.
Qed.

Definition emptyListNullInList : Props :=
  {[ "immutableData" := VList []; "renderEmptyInList" := VNull ]}.

Lemma falsy_options_switch_the_empty_branch_off_witness :
  let this := ImmutableListView.constructor emptyListNullInList in
  ImmutableListView.renderEmpty (λ _ _, true) (ImmutableListView.props this) = Some None
  ∧ ImmutableListView.render (λ _ _, true) this
    = Some (ListView (ImmutableListView.dataSource (ImmutableListView.state this))
                     (ImmutableListView.passThroughProps (ImmutableListView.props this))).
Proof.
  intros this.
  apply (falsy_options_switch_the_empty_branch_off (λ _ _, true) this); reflexivity.
Defined.

(** What a call can return: the element of a host function or the text
    row of a placeholder, never the list widget. *)
Lemma call_not_ListView host f args ds q :
  call host f args ≠ Some (Some (ListView ds q)).
Proof.
  revert args.
  induction f as [ | | b | n | s | r | items _ | entries _ | | tp | g tp IH ]
    using Value_nested_ind;
    intros args Hcall; simpl in Hcall; try discriminate.
  - destruct (host r args); discriminate.
  - by eapply IH.
Qed.

(** The widget comes from the last line of [render] only. *)
Lemma render_ListView host this ds q :
  ImmutableListView.render host this = Some (ListView ds q) →
  ImmutableListView.renderEmpty host (ImmutableListView.props this) = Some None
  ∧ ds = ImmutableListView.dataSource (ImmutableListView.state this)
  ∧ q = ImmutableListView.passThroughProps (ImmutableListView.props this).
Proof.
  unfold ImmutableListView.render.
  destruct (ImmutableListView.renderEmpty host _) as [ [ el | ] | ] eqn:HrenderEmpty;
    simpl; [ | by intros; simplify_eq | done ].
  intros Hel. simplify_eq. exfalso. revert HrenderEmpty.
  unfold ImmutableListView.renderEmpty.
  destruct (if JS.truthy (JS.or _ _) then _ else _) as [ [ | ] | ]; simpl; [ | done | done ].
  destruct (JS.truthy (JS.prop _ "renderEmpty")).
  - destruct (JS.typeof_string _); [ done | ]. apply call_not_ListView.
  - destruct (JS.truthy (JS.prop _ "renderEmptyInList")); [ | done ].
    by destruct (JS.typeof_string _).
Qed.

Definition consumedByImmutableListView : list string :=
  ["immutableData"; "renderEmpty"; "renderEmptyInList"; "rowsDuringInteraction";
   "sectionHeaderHasChanged"].

(** X10.  Whenever [render] returns the list widget, the dataSource
    attribute is the data source of the state, and the props spread
    after it are the component's own without immutableData, renderEmpty,
    renderEmptyInList, rowsDuringInteraction and
    sectionHeaderHasChanged: these five never reach the widget, every
    other prop reaches it unchanged, and nothing is added. *)
Theorem ListView_gets_the_state_dataSource_and_the_other_props
    host (this : ImmutableListView.Instance) ds q :
  ImmutableListView.render host this = Some (ListView ds q) →
  ds = ImmutableListView.dataSource (ImmutableListView.state this)
  ∧ ∀ k, q !! k = if decide (k ∈ consumedByImmutableListView) then None
                  else ImmutableListView.props this !! k.
Proof.
  intros Hrender. destruct (render_ListView _ _ _ _ Hrender) as (_ & -> & ->).
  split; [ done | ]. intros k. apply lookup_rest.
Qed.

Lemma ListView_gets_the_state_dataSource_and_the_other_props_witness :
  let this := ImmutableListView.constructor twoDuringInteraction in
  ∃ ds q,
    ImmutableListView.render (λ _ _, true) this = Some (ListView ds q)
    ∧ ds = ImmutableListView.dataSource (ImmutableListView.state this)
    ∧ ∀ k, q !! k = if decide (k ∈ consumedByImmutableListView) then None
                    else ImmutableListView.props this !! k.
Proof.
  intros this.
  exists (ImmutableListView.dataSource (ImmutableListView.state this)),
         (ImmutableListView.passThroughProps (ImmutableListView.props this)).
  split; [ reflexivity | ].
  apply (ListView_gets_the_state_dataSource_and_the_other_props (λ _ _, true) this).
  reflexivity.
Defined.

(** X11.  An empty collection, no truthy renderEmpty and a truthy
    renderEmptyInList that is not a string: [render] returns the
    placeholder with all the component's props and a row renderer of its
    own in place of renderRow.  The placeholder hands that renderer on to
    its list of one row, and whatever arguments the widget calls it with,
    it calls renderEmptyInList with the props of the outer component and
    nothing else.  Whether renderEmptyInList can be called at all is not
    looked at before the row is rendered. *)
Theorem renderEmptyInList_function_is_the_row_of_the_placeholder
    host defaults (this : ImmutableListView.Instance) g :
  let p := ImmutableListView.props this in
  let q := <["renderRow" := VRenderEmptyInListRow g p]> p in
  Immutable.isEmpty (JS.prop p "immutableData") = Some true →
  JS.truthy (JS.prop p "renderEmpty") = false →
  JS.prop p "renderEmptyInList" = g →
  JS.truthy g = true → JS.typeof_string g = false →
  ImmutableListView.render host this = Some (EmptyListViewElement q)
  ∧ ∃ placeholder inner row,
      Reconciler.mountEmptyListView defaults q
      = Some (placeholder, ImmutableListViewElement inner)
      ∧ JS.prop inner "immutableData" = VList [row]
      ∧ ∀ args, call host (JS.prop inner "renderRow") args = call host g [ArgProps p].
Proof.
  intros p q Hempty Hstandalone HinList Htruthy Hstring. split.
  - unfold ImmutableListView.render, ImmutableListView.renderEmpty. fold p.
    unfold JS.or. rewrite Hstandalone, HinList, Htruthy.
    rewrite (isEmptyListView_no_entries _ _ Hempty). simpl. by rewrite Hstring.
  - set (props := React.resolveDefaultProps (EmptyListView.defaultProps defaults) q).
    set (row := Immutable.fromJS_array
                  [JS.prop props "renderEmpty"; JS.prop props "renderEmptyInList";
                   JS.prop props "emptyText"]).
    set (placeholder := EmptyListView.mkInstance props (VList [row])).
    exists placeholder, (delegatedProps placeholder), row.
    split; [ reflexivity | ]. split.
    + unfold JS.prop. by rewrite delegatedProps_data.
    + intros args. unfold JS.prop at 1. rewrite delegatedProps_other.
      * assert (JS.prop props "renderRow" = VRenderEmptyInListRow g p) as Hrow.
        { unfold props. rewrite prop_resolveDefaultProps. unfold JS.prop at 1, q.
          by rewrite lookup_insert_eq. }
        unfold JS.prop in Hrow. simpl.
        destruct (props !! "renderRow") as [ v | ]; simpl in Hrow; by subst.
      * done.
      * unfold consumedByEmptyListView. not_in_list.
Qed.

Definition emptyListFunctionInList : Props :=
  {[ "immutableData" := VList []; "renderEmptyInList" := VFunc 7 ]}.

Lemma renderEmptyInList_function_is_the_row_of_the_placeholder_witness :
  let this := ImmutableListView.constructor emptyListFunctionInList in
  let p := ImmutableListView.props this in
  let q := <["renderRow" := VRenderEmptyInListRow (VFunc 7) p]> p in
  ImmutableListView.render (λ _ _, true) this = Some (EmptyListViewElement q)
  ∧ ∃ placeholder inner row,
      Reconciler.mountEmptyListView ∅ q
      = Some (placeholder, ImmutableListViewElement inner)
      ∧ JS.prop inner "immutableData" = VList [row]
      ∧ ∀ args, call (λ _ _, true) (JS.prop inner "renderRow") args
                = call (λ _ _, true) (VFunc 7) [ArgProps p].
Proof.
  intros this p q.
  apply (renderEmptyInList_function_is_the_row_of_the_placeholder (λ _ _, true) ∅ this
           (VFunc 7)); reflexivity.
Defined.

(** X12.  What a renderEmpty function returns is final.  When it
    returns nothing renderable for an empty collection, [render] falls
    through to the list widget: renderEmptyInList is not tried, however
    it is set. *)
Theorem renderEmpty_returning_null_renders_the_ListView
    host (this : ImmutableListView.Instance) f :
  let p := ImmutableListView.props this in
  Immutable.isEmpty (JS.prop p "immutableData") = Some true →
  JS.prop p "renderEmpty" = VFunc f →
  host f [ArgProps p] = false →
  ImmutableListView.render host this
  = Some (ListView (ImmutableListView.dataSource (ImmutableListView.state this))
                   (ImmutableListView.passThroughProps p)).
Proof.
  intros p Hempty Hstandalone Hnull.
  unfold ImmutableListView.render, ImmutableListView.renderEmpty. fold p.
  unfold JS.or. rewrite Hstandalone. simpl.
  rewrite (isEmptyListView_no_entries _ _ Hempty). simpl. by rewrite Hnull.
Qed.

Definition emptyListBothOptions : Props :=
  {[ "immutableData" := VList []; "renderEmpty" := VFunc 3;
     "renderEmptyInList" := VStr "Nothing here" ]}.

Lemma renderEmpty_returning_null_renders_the_ListView_witness :
  let this := ImmutableListView.constructor emptyListBothOptions in
  ImmutableListView.render (λ _ _, false) this
  = Some (ListView (ImmutableListView.dataSource (ImmutableListView.state this))
                   (ImmutableListView.passThroughProps (ImmutableListView.props this))).
Proof.
  intros this.
  apply (renderEmpty_returning_null_renders_the_ListView (λ _ _, false) this 3);
    reflexivity.
Defined.



(** ** The placeholder's row *)

(** The row [setListDataFromProps] builds from [props]. *)
Definition rowOf (props : Props) : Value :=
  Immutable.fromJS_array
    [JS.prop props "renderEmpty"; JS.prop props "renderEmptyInList";
     JS.prop props "emptyText"].

(** The list data of a placeholder is the row of its current props. *)
Lemma placeholder_listData_current this :
  PlaceholderReachable this →
  EmptyListView.listData this = VList [rowOf (EmptyListView.props this)].
Proof.
  induction 1 as [ props this Hmount | this nextProps this' _ IH Hupdate ].
  - unfold EmptyListView.componentWillMount, EmptyListView.setListDataFromProps in Hmount.
    simpl in Hmount. by simplify_eq.
  - unfold EmptyListView.componentWillReceiveProps, EmptyListView.setListDataFromProps
      in Hupdate.
    rewrite IH in Hupdate. simpl in Hupdate. by simplify_eq.
Qed.

Lemma StructEq_three a b c a' b' c' :
  StructEq (VList [a; b; c]) (VList [a'; b'; c'])
  ↔ StructEq a a' ∧ StructEq b b' ∧ StructEq c c'.
Proof.
  split.
  - intros H. inversion H as [ | | | | | | | xs ys Hall | ]; subst.
    apply Forall2_cons in Hall as [Ha Hall]. apply Forall2_cons in Hall as [Hb Hall].
    apply Forall2_cons in Hall as [Hc _]. done.
  - intros (Ha & Hb & Hc). constructor. by repeat constructor.
Qed.

(** X14.  An update of a placeholder never fails and replaces its one
    row by the row of the new props: renderEmpty, renderEmptyInList and
    emptyText, in this order.  For the data source the row has changed
    exactly when one of the three props is no longer structurally equal
    to what it was, so a change of any other prop leaves the row as it
    is. *)
Theorem placeholder_row_follows_its_three_props this nextProps :
  PlaceholderReachable this →
  ∃ this' prevRow nextRow,
    EmptyListView.componentWillReceiveProps this nextProps = Some this'
    ∧ EmptyListView.props this' = nextProps
    ∧ EmptyListView.listData this' = VList [nextRow]
    ∧ Immutable.get (EmptyListView.listData this) (KNum 0) = Some prevRow
    ∧ Immutable.get (EmptyListView.listData this') (KNum 0) = Some nextRow
    ∧ nextRow = rowOf nextProps
    ∧ (ImmutableListView.rowHasChanged prevRow nextRow = false
       ↔ StructEq (JS.prop (EmptyListView.props this) "renderEmpty")
                  (JS.prop nextProps "renderEmpty")
         ∧ StructEq (JS.prop (EmptyListView.props this) "renderEmptyInList")
                    (JS.prop nextProps "renderEmptyInList")
         ∧ StructEq (JS.prop (EmptyListView.props this) "emptyText")
                    (JS.prop nextProps "emptyText")).
Proof.
  intros Hreach. pose proof (placeholder_listData_current this Hreach) as Hdata.
  exists (EmptyListView.mkInstance nextProps (VList [rowOf nextProps])),
         (rowOf (EmptyListView.props this)), (rowOf nextProps).
  split.
  { unfold EmptyListView.componentWillReceiveProps, EmptyListView.setListDataFromProps.
    by rewrite Hdata. }
  split; [ done | ]. split; [ done | ]. split; [ by rewrite Hdata | ].
  split; [ done | ]. split; [ done | ].
  unfold ImmutableListView.rowHasChanged. rewrite negb_false_iff, is_StructEq.
  apply StructEq_three.
Qed.

Definition placeholderNoData : EmptyListView.Instance :=
  EmptyListView.mkInstance {[ "emptyText" := VStr "No data." ]}
    (VList [VList [VUndefined; VUndefined; VStr "No data."]]).

Lemma placeholder_row_follows_its_three_props_witness :
  ∃ this' prevRow nextRow,
    EmptyListView.componentWillReceiveProps placeholderNoData
      {[ "emptyText" := VStr "Nothing yet" ]} = Some this'
    ∧ EmptyListView.props this' = {[ "emptyText" := VStr "Nothing yet" ]}
    ∧ EmptyListView.listData this' = VList [nextRow]
    ∧ Immutable.get (EmptyListView.listData placeholderNoData) (KNum 0) = Some prevRow
    ∧ Immutable.get (EmptyListView.listData this') (KNum 0) = Some nextRow
    ∧ nextRow = rowOf {[ "emptyText" := VStr "Nothing yet" ]}
    ∧ (ImmutableListView.rowHasChanged prevRow nextRow = false
       ↔ StructEq (JS.prop (EmptyListView.props placeholderNoData) "renderEmpty")
                  (JS.prop {[ "emptyText" := VStr "Nothing yet" ]} "renderEmpty")
         ∧ StructEq (JS.prop (EmptyListView.props placeholderNoData) "renderEmptyInList")
                    (JS.prop {[ "emptyText" := VStr "Nothing yet" ]} "renderEmptyInList")
         ∧ StructEq (JS.prop (EmptyListView.props placeholderNoData) "emptyText")
                    (JS.prop {[ "emptyText" := VStr "Nothing yet" ]} "emptyText")).
Proof.
  apply (placeholder_row_follows_its_three_props placeholderNoData).
  apply (reachable_mounted {[ "emptyText" := VStr "No data." ]}). reflexivity.
Defined.

(** X15.  The placeholder does not consume rowsDuringInteraction, so its
    one row is capped like the rows of any list.  With
    rowsDuringInteraction = 0 the list it delegates to is mounted with no
    row at all, and the message appears only when the queued callback
    has run; with any other number the row is there from the start.  The
    widget's own defaults are taken to define no renderSectionHeader. *)
Theorem placeholder_row_is_capped_like_any_row host defaults q n :
  defaults !! "renderSectionHeader" = None →
  JS.prop (React.resolveDefaultProps (EmptyListView.defaultProps defaults) q)
          "rowsDuringInteraction" = VNum n →
  ∃ placeholder innerProps inner settled,
    Reconciler.mountEmptyListView defaults q
    = Some (placeholder, ImmutableListViewElement innerProps)
    ∧ Reconciler.mountImmutableListView host defaults innerProps
      = Some (inner,
              ListView (ImmutableListView.dataSource (ImmutableListView.state inner))
                       (ImmutableListView.passThroughProps (ImmutableListView.props inner)))
    ∧ ListViewDataSource.getRowCount
        (ImmutableListView.dataSource (ImmutableListView.state inner))
      = (if n =? 0 then 0%nat else 1%nat)
    ∧ ImmutableListView.step inner ImmutableListView.InteractionsSettle = Some settled
    ∧ ListViewDataSource.getRowCount
        (ImmutableListView.dataSource (ImmutableListView.state settled)) = 1%nat.
Proof.
  intros Hdefaults Hcap.
  set (props := React.resolveDefaultProps (EmptyListView.defaultProps defaults) q) in *.
  set (placeholder := EmptyListView.mkInstance props (VList [rowOf props])).
  assert (PlaceholderReachable placeholder) as Hreach.
  { by apply (reachable_mounted props). }
  set (P := React.resolveDefaultProps (ImmutableListView.defaultProps defaults)
              (delegatedProps placeholder)).
  assert (JS.prop P "immutableData" = VList [rowOf props]) as Hdata.
  { unfold P. rewrite prop_resolveDefaultProps. unfold JS.prop at 1.
    by rewrite delegatedProps_data. }
  assert (JS.prop P "rowsDuringInteraction" = VNum n) as Hn.
  { unfold P. rewrite prop_resolveDefaultProps. unfold JS.prop at 1.
    rewrite delegatedProps_other;
      [ | done | unfold consumedByEmptyListView; not_in_list ].
    unfold JS.prop in Hcap. simpl.
    destruct (props !! "rowsDuringInteraction") as [ v | ]; simpl in Hcap; by subst. }
  assert (JS.truthy (JS.prop P "renderSectionHeader") = false) as Hflat.
  { unfold P. rewrite prop_resolveDefaultProps. unfold JS.prop at 1.
    rewrite delegatedProps_consumed by (unfold consumedByEmptyListView; in_list).
    simpl. unfold JS.prop.
    rewrite ImmutableListView_defaultProps_foreign by not_in_list.
    by rewrite Hdefaults. }
  assert (Immutable.entries (JS.prop P "immutableData") = Some [(KNum 0, rowOf props)])
    as Hes by (by rewrite Hdata).
  assert (is_Some (JS.ge0 (JS.prop P "rowsDuringInteraction"))) as Hge
    by (rewrite Hn; by eexists).
  assert (wellTyped P) as HP.
  { split; [ | done ].
    unfold propTypes_immutableData, utils_isImmutableIterable. by rewrite Hdata. }
  set (this0 := ImmutableListView.mkInstance P
                  (ImmutableListView.state (ImmutableListView.constructor P)) true [] []).
  destruct (displayData_entries this0 P false _ Hes Hge) as (D & Hdisplay & HD & _).
  pose proof (setStateFromProps_derives this0 P false D _ eq_refl Hdisplay HD) as Hsync.
  rewrite Hflat in Hsync.
  assert (∃ inner,
            ImmutableListView.componentWillMount (ImmutableListView.constructor P)
            = Some inner
            ∧ ImmutableListView.props inner = P
            ∧ ImmutableListView.canSetState inner = true
            ∧ ImmutableListView.afterInteractions inner = (if 0 <=? n then [P] else [])
            ∧ ListViewDataSource.rowIdentities
                (ImmutableListView.dataSource (ImmutableListView.state inner))
              = [(shownEntries this0 P false [(KNum 0, rowOf props)]).*1])
    as (inner & Hmount & Hprops & Hlive & Hqueue & Hrows).
  { change (ImmutableListView.componentWillMount (ImmutableListView.constructor P))
      with (ImmutableListView.setStateFromPropsAfterInteraction this0 P).
    unfold ImmutableListView.setStateFromPropsAfterInteraction.
    rewrite Hsync. simpl. rewrite Hn. simpl.
    eexists. split; [ reflexivity | ]. by destruct (0 <=? n). }
  assert (ImmutableListView.render host inner
          = Some (ListView (ImmutableListView.dataSource (ImmutableListView.state inner))
                    (ImmutableListView.passThroughProps (ImmutableListView.props inner))))
    as Hrender.
  { by apply (inner_list_renders_ListView host defaults placeholder inner Hreach). }
  assert (ListViewDataSource.getRowCount
            (ImmutableListView.dataSource (ImmutableListView.state inner))
          = (if n =? 0 then 0%nat else 1%nat)) as Hcount.
  { unfold ListViewDataSource.getRowCount. rewrite Hrows. unfold shownEntries.
    rewrite Hn. simpl. rewrite andb_true_r.
    destruct (0 <=? n) eqn:Hle; simpl.
    - destruct (n =? 0) eqn:Hzero.
      + apply Z.eqb_eq in Hzero. by subst n.
      + apply Z.eqb_neq in Hzero. apply Z.leb_le in Hle.
        rewrite take_ge by (simpl; lia). done.
    - destruct (n =? 0) eqn:Hzero; [ | done ].
      apply Z.eqb_eq in Hzero. by subst n. }
  assert (∃ settled,
            ImmutableListView.step inner ImmutableListView.InteractionsSettle = Some settled
            ∧ ListViewDataSource.getRowCount
                (ImmutableListView.dataSource (ImmutableListView.state settled)) = 1%nat)
    as (settled & Hsettle & Hcount').
  { destruct (0 <=? n) eqn:Hle.
    - destruct (settle_wellTyped inner P [] Hlive Hqueue HP)
        as (settled & Hsettle & _ & _ & _ & _ & es & Hes' & Hwhole).
      exists settled. split; [ done | ].
      rewrite Hflat in Hwhole. destruct Hwhole as (_ & _ & Hrows').
      rewrite Hes in Hes'. simplify_eq.
      unfold ListViewDataSource.getRowCount. by rewrite Hrows'.
    - exists inner. split.
      + simpl. unfold ImmutableListView.runDeferred. by rewrite Hqueue.
      + rewrite Hcount. destruct (n =? 0) eqn:Hzero; [ | done ].
        apply Z.eqb_eq in Hzero. by subst n. }
  exists placeholder, (delegatedProps placeholder), inner, settled.
  split; [ reflexivity | ]. split.
  { unfold Reconciler.mountImmutableListView. fold P. rewrite Hmount. simpl.
    by rewrite Hrender. }
  done.
Qed.

Lemma placeholder_row_is_capped_like_any_row_witness :
  ∃ placeholder innerProps inner settled,
    Reconciler.mountEmptyListView ∅
      {[ "emptyText" := VStr "Nothing here"; "rowsDuringInteraction" := VNum 0 ]}
    = Some (placeholder, ImmutableListViewElement innerProps)
    ∧ Reconciler.mountImmutableListView (λ _ _, true) ∅ innerProps
      = Some (inner,
              ListView (ImmutableListView.dataSource (ImmutableListView.state inner))
                       (ImmutableListView.passThroughProps (ImmutableListView.props inner)))
    ∧ ListViewDataSource.getRowCount
        (ImmutableListView.dataSource (ImmutableListView.state inner))
      = (if 0 =? 0 then 0%nat else 1%nat)
    ∧ ImmutableListView.step inner ImmutableListView.InteractionsSettle = Some settled
    ∧ ListViewDataSource.getRowCount
        (ImmutableListView.dataSource (ImmutableListView.state settled)) = 1%nat.
Proof.
  apply (placeholder_row_is_capped_like_any_row (λ _ _, true) ∅
           {[ "emptyText" := VStr "Nothing here"; "rowsDuringInteraction" := VNum 0 ]} 0);
    reflexivity.
Defined.

(** ** The defaults of the list component *)




